(** * Chicken Math PDF service: a shallow embedding and its properties

    The repository is two Python scripts:
    - [chicken_math_pdf_generator.py], the report composer
      ([generate_chicken_math_pdf], [add_page_number]);
    - [api_server.py], the Flask front end ([generate_pdf],
      [generate_pdf_base64]).

    Python values that travel through the code (the parsed JSON body) are
    embedded as the inductive type [pyval]; exceptions are explicit
    ([result]); the file system, the application log and standard output
    are threaded through as a [world].  Behaviour that lives in third-party
    libraries (reportlab's paragraph parser and page builder, base64, the
    shortest-repr printing of floats) is a field of the class [Runtime], so
    every theorem holds for any behaviour of those libraries. *)

From Stdlib Require Import ZArith String Ascii List Lia.
From Stdlib Require Import Decimal DecimalString DecimalPos DecimalZ.
From Stdlib Require Import Floats.SpecFloat.
From stdpp Require Import base gmap strings list.

#[local] Set Warnings "-register-all".
#[local] Open Scope string_scope.
#[local] Open Scope list_scope.
#[local] Open Scope Z_scope.

(** ** Python values, exceptions and results *)

(** What [request.json] can produce: [json.loads] maps JSON null, booleans,
    integers (unbounded), reals (binary64), strings, arrays and objects to
    [None], [bool], [int], [float], [str], [list] and [dict]. *)
Inductive pyval :=
| PNone
| PBool (b : bool)
| PInt (z : Z)
| PFloat (f : spec_float)
| PStr (s : string)
| PList (l : list pyval)
| PDict (d : gmap string pyval).

(** Exceptions by class; the text of [str(e)] is left to the runtime. *)
Inductive exn :=
| TypeError
| ValueError
| AttributeError
| KeyError
| OverflowError
| OSError
| HTTPException (code : Z)
| LibraryError (tag : string).

Inductive result (A : Type) :=
| Ok (a : A)
| Raise (e : exn).
Arguments Ok {A} a.
Arguments Raise {A} e.

(** [result] is an error monad; stdpp's [x ← r; k] sequences statements, the
    first exception raised ends the block. *)
#[export] Instance result_ret : MRet result := fun A a => Ok a.
#[export] Instance result_bind : MBind result := fun A B k r =>
  match r with
  | Ok a => k a
  | Raise e => Raise e
  end.

(** ** The binary64 numbers of Python *)

Definition prec64 : Z := 53.
Definition emax64 : Z := 1024.

(** [float(z)] for an [int]: round to nearest, ties to even; an [int] too
    large for a double raises [OverflowError]. *)
Definition float_of_int (z : Z) : result spec_float :=
  match binary_normalize prec64 emax64 z 0 false with
  | S754_infinity _ => Raise OverflowError
  | f => Ok f
  end.

(** [bool] is a subclass of [int]. *)
Definition as_int (v : pyval) : option Z :=
  match v with
  | PInt z => Some z
  | PBool b => Some (Z.b2z b)
  | _ => None
  end.

(** ** Decimal digits and the format mini-language *)

Definition is_digit (c : ascii) : bool :=
  let n := nat_of_ascii c in (48 <=? n)%nat && (n <=? 57)%nat.

Definition digits_of_N (n : N) : string :=
  NilZero.string_of_uint (N.to_uint n).

Definition sign_text (neg : bool) : string := if neg then "-" else "".

(** The [,] option: a comma between groups of three digits, counted from
    the right.  [group3_rev] works on the digits least significant first. *)
Fixpoint group3_rev (l : list ascii) : list ascii :=
  match l with
  | a :: b :: c :: ((_ :: _) as more) =>
      a :: b :: c :: ","%char :: group3_rev more
  | _ => l
  end.

Definition group_thousands (digits : string) : string :=
  string_of_list_ascii (rev (group3_rev (rev (list_ascii_of_string digits)))).

(** Nearest integer to [n / d] ([0 <= n], [0 < d]), ties to even: the
    rounding of [%.2f], which is correctly rounded on the exact binary
    value. *)
Definition round_half_even_div (n d : Z) : Z :=
  let q := n / d in
  let r := n mod d in
  match 2 * r ?= d with
  | Lt => q
  | Gt => q + 1
  | Eq => if Z.even q then q else q + 1
  end.

(** The magnitude [m * 2^e] in hundredths, rounded. *)
Definition cents_of_finite (m : positive) (e : Z) : Z :=
  if 0 <=? e then Z.pos m * 2 ^ e * 100
  else round_half_even_div (Z.pos m * 100) (2 ^ (- e)).

Definition two_digits (n : Z) : string :=
  digits_of_N (Z.to_N (n / 10)) +:+ digits_of_N (Z.to_N (n mod 10)).

Definition fixed2_of_cents (neg : bool) (cents : Z) : string :=
  sign_text neg +:+ group_thousands (digits_of_N (Z.to_N (cents / 100)))
    +:+ "." +:+ two_digits (cents mod 100).

(** [format(f, ',.2f')] for a float. *)
Definition format_float_2f (f : spec_float) : string :=
  match f with
  | S754_nan => "nan"
  | S754_infinity s => sign_text s +:+ "inf"
  | S754_zero s => fixed2_of_cents s 0
  | S754_finite s m e => fixed2_of_cents s (cents_of_finite m e)
  end.

(** ** Strings: the two [str] operations the front end uses *)

(** [s.replace(' ', '_')]. *)
Fixpoint replace_space (s : string) : string :=
  match s with
  | EmptyString => EmptyString
  | String c s' =>
      String (if Ascii.eqb c " " then "_"%char else c) (replace_space s')
  end.

(** [needle in hay] for two [str]. *)
Fixpoint is_substring (needle hay : string) : bool :=
  String.prefix needle hay ||
  match hay with
  | EmptyString => false
  | String _ hay' => is_substring needle hay'
  end.

(** [os.path.join(dir, name)] on POSIX for a relative [name]. *)
Definition path_join (dir name : string) : string :=
  match String.length dir with
  | O => name
  | S n =>
      if String.eqb (String.substring n 1 dir) "/" then dir +:+ name
      else dir +:+ "/" +:+ name
  end.

(** ** The calendar date of [datetime.now()] *)

Inductive month :=
| January | February | March | April | May | June
| July | August | September | October | November | December.

Record date := { year : Z; mon : month; day : Z }.

Definition month_name (m : month) : string :=
  match m with
  | January => "January" | February => "February" | March => "March"
  | April => "April" | May => "May" | June => "June"
  | July => "July" | August => "August" | September => "September"
  | October => "October" | November => "November" | December => "December"
  end.

(** [strftime('%B %d, %Y')] in the C locale, for a four-digit year. *)
Definition strftime_long (d : date) : string :=
  month_name (mon d) +:+ " " +:+ two_digits (day d) +:+ ", "
    +:+ digits_of_N (Z.to_N (year d)).

(** ** The document model (reportlab's platypus objects)

    Lengths are in hundredths of a point, so that every length of the
    source ([0.2*inch], [2.75*inch], ...) is an integer. *)

Definition pt : Z := 100.
Definition inch : Z := 72 * pt.
Definition letter : Z * Z := (612 * pt, 792 * pt).

Inductive color :=
| HexColor (hex : string)
| NamedColor (name : string).

Inductive alignment := TA_CENTER | TA_JUSTIFY.

Record ParagraphStyle := {
  style_name : string;
  parent : string;
  fontSize : Z;
  textColor : option color;
  spaceAfter : option Z;
  spaceBefore : option Z;
  align : option alignment;
  fontName : option string
}.

(** A [TableStyle] command with its cell range [(col, row)]-[(col, row)];
    negative indices count from the end. *)
Inductive style_cmd :=
| BACKGROUND (start stop : Z * Z) (c : color)
| TEXTCOLOR (start stop : Z * Z) (c : color)
| ALIGN (start stop : Z * Z) (how : string)
| FONTNAME (start stop : Z * Z) (font : string)
| FONTSIZE (start stop : Z * Z) (size : Z)
| BOTTOMPADDING (start stop : Z * Z) (pad : Z)
| GRID (start stop : Z * Z) (width : Z) (c : color).

Inductive flowable :=
| Paragraph (text : pyval) (style : ParagraphStyle)
| Spacer (width height : Z)
| Table (cells : list (list string)) (colWidths : list Z)
        (style : list style_cmd)
| PageBreak.

(** What [add_page_number] does to the canvas of a page. *)
Inductive canvas_op :=
| saveState
| restoreState
| setFont (font : string) (size : Z)
| setFillColor (c : color)
| drawString (x y : Z) (text : string)
| drawCentredString (x y : Z) (text : string).

(** ** The world outside the two scripts *)

Abbreviation files := (gmap string (list Byte.byte)).

(** [composer_calls] is a ghost trace: each entry is one call of
    [generate_chicken_math_pdf], with its arguments. *)
Record world := {
  fs : files;
  stdout : list string;
  app_log : list string;
  composer_calls : list (pyval * string)
}.

(** Library behaviour the scripts rely on but do not define. *)
Class Runtime := {
  (** [sys.get_int_max_str_digits()]; [0] is "no limit". *)
  int_max_str_digits : nat;
  (** [str(f)] and [format(f, ',')] for a float. *)
  float_repr : spec_float -> string;
  float_format_comma : spec_float -> string;
  (** [str(v)] for a list or a dict. *)
  container_repr : pyval -> result string;
  (** [str(e)] for an exception. *)
  exn_str : exn -> string;
  (** [Paragraph(text, style)]: [Some e] when the constructor raises. *)
  paragraph_init : pyval -> ParagraphStyle -> option exn;
  (** [SimpleDocTemplate(filename, ...).build(story, onFirstPage,
      onLaterPages)]: the exception raised, if any, and the files after.
      The two page callbacks receive the clock and the page number. *)
  doc_build : string -> list flowable ->
              (date -> Z -> result (list canvas_op)) ->
              (date -> Z -> result (list canvas_op)) ->
              files -> option exn * files;
  (** [base64.b64encode(data).decode('utf-8')]. *)
  b64encode : list Byte.byte -> string
}.

(** ** HTTP responses *)

Inductive payload :=
| JsonPayload (j : pyval)
| FilePayload (path : string) (content : list Byte.byte)
              (download_name : string) (mimetype : string)
              (as_attachment : bool).

(** [on_close] is the file that the [call_on_close] hook removes. *)
Record response := {
  status : Z;
  body : payload;
  on_close : option string
}.

(** ** Python built-ins used by the scripts *)

Section Builtins.
Context {rt : Runtime}.

(** [str(z)] for an [int]: the decimal digits, refused with [ValueError]
    when there are more of them than the interpreter's limit. *)
Definition over_digit_limit (digits : string) : bool :=
  (0 <? int_max_str_digits)%nat &&
  (int_max_str_digits <? String.length digits)%nat.

Definition int_digits (z : Z) : result string :=
  let ds := digits_of_N (Z.abs_N z) in
  if over_digit_limit ds then Raise ValueError else Ok ds.

Definition int_str (z : Z) : result string :=
  ds ← int_digits z; Ok (sign_text (z <? 0) +:+ ds).

(** [str(v)], which is also [format(v, '')] and [f"{v}"]. *)
Definition py_str (v : pyval) : result string :=
  match v with
  | PNone => Ok "None"
  | PBool true => Ok "True"
  | PBool false => Ok "False"
  | PInt z => int_str z
  | PFloat f => Ok (float_repr f)
  | PStr s => Ok s
  | PList _ | PDict _ => container_repr v
  end.

(** [a - b]. *)
Definition py_sub (a b : pyval) : result pyval :=
  match as_int a, as_int b with
  | Some x, Some y => Ok (PInt (x - y))
  | _, _ =>
      match a, b with
      | PFloat x, PFloat y => Ok (PFloat (SFsub prec64 emax64 x y))
      | PFloat x, _ =>
          match as_int b with
          | Some z => y ← float_of_int z;
                      Ok (PFloat (SFsub prec64 emax64 x y))
          | None => Raise TypeError
          end
      | _, PFloat y =>
          match as_int a with
          | Some z => x ← float_of_int z;
                      Ok (PFloat (SFsub prec64 emax64 x y))
          | None => Raise TypeError
          end
      | _, _ => Raise TypeError
      end
  end.

(** [v >= 0]. *)
Definition py_ge_zero (v : pyval) : result bool :=
  match v with
  | PInt _ | PBool _ => Ok (0 <=? default 0 (as_int v))
  | PFloat f => Ok (SFleb (S754_zero false) f)
  | _ => Raise TypeError
  end.

(** [format(v, ',')], the [{...:,}] field of an f-string. *)
Definition py_format_comma (v : pyval) : result string :=
  match v with
  | PInt _ | PBool _ =>
      let z := default 0 (as_int v) in
      ds ← int_digits z; Ok (sign_text (z <? 0) +:+ group_thousands ds)
  | PFloat f => Ok (float_format_comma f)
  | PStr _ => Raise ValueError
  | _ => Raise TypeError
  end.

(** [format(v, ',.2f')], the [{...:,.2f}] field of an f-string; an [int]
    is converted with [float(v)] first. *)
Definition py_format_money (v : pyval) : result string :=
  match v with
  | PInt _ | PBool _ =>
      f ← float_of_int (default 0 (as_int v)); Ok (format_float_2f f)
  | PFloat f => Ok (format_float_2f f)
  | PStr _ => Raise ValueError
  | _ => Raise TypeError
  end.

(** [data.get(key, dflt)]; only a [dict] has the method. *)
Definition py_get (data : pyval) (key : string) (dflt : pyval)
  : result pyval :=
  match data with
  | PDict d => Ok (default dflt (d !! key))
  | _ => Raise AttributeError
  end.

(** [data[key]] for a [str] key. *)
Definition py_getitem (data : pyval) (key : string) : result pyval :=
  match data with
  | PDict d =>
      match d !! key with
      | Some v => Ok v
      | None => Raise KeyError
      end
  | _ => Raise TypeError
  end.

Definition is_str (s : string) (v : pyval) : bool :=
  match v with
  | PStr t => String.eqb t s
  | _ => false
  end.

(** [key in data] for a [str] key: key of a dict, element of a list,
    substring of a string; the other values are not iterable. *)
Definition py_contains (data : pyval) (key : string) : result bool :=
  match data with
  | PDict d => Ok (bool_decide (is_Some (d !! key)))
  | PList l => Ok (existsb (is_str key) l)
  | PStr s => Ok (is_substring key s)
  | _ => Raise TypeError
  end.

(** [v.replace(' ', '_')]; only a [str] has the method. *)
Definition py_replace_space (v : pyval) : result string :=
  match v with
  | PStr s => Ok (replace_space s)
  | _ => Raise AttributeError
  end.

End Builtins.

(** ** chicken_math_pdf_generator.py *)

Definition nl : string := String "010"%char EmptyString.

Definition title_style : ParagraphStyle :=
  {| style_name := "CustomTitle"; parent := "Heading1"; fontSize := 24 * pt;
     textColor := Some (HexColor "#e74c3c"); spaceAfter := Some (30 * pt);
     spaceBefore := None; align := Some TA_CENTER;
     fontName := Some "Helvetica-Bold" |}.

Definition subtitle_style : ParagraphStyle :=
  {| style_name := "CustomSubtitle"; parent := "Heading2";
     fontSize := 14 * pt; textColor := Some (HexColor "#2c3e50");
     spaceAfter := Some (12 * pt); spaceBefore := Some (12 * pt);
     align := None; fontName := Some "Helvetica-Bold" |}.

Definition body_style : ParagraphStyle :=
  {| style_name := "CustomBody"; parent := "BodyText"; fontSize := 11 * pt;
     textColor := None; spaceAfter := Some (12 * pt); spaceBefore := None;
     align := Some TA_JUSTIFY; fontName := None |}.

Definition stamp_style : ParagraphStyle :=
  {| style_name := "Stamp"; parent := "Normal"; fontSize := 18 * pt;
     textColor := Some (NamedColor "red"); spaceAfter := None;
     spaceBefore := None; align := Some TA_CENTER;
     fontName := Some "Helvetica-Bold" |}.

Definition positive_fill : color := HexColor "#2ecc71".
Definition negative_fill : color := HexColor "#e74c3c".

Definition flock_style : list style_cmd :=
  [ BACKGROUND (0, 0) (-1, 0) (HexColor "#e74c3c");
    TEXTCOLOR (0, 0) (-1, 0) (NamedColor "whitesmoke");
    ALIGN (0, 0) (-1, -1) "CENTER";
    FONTNAME (0, 0) (-1, 0) "Helvetica-Bold";
    FONTSIZE (0, 0) (-1, 0) (12 * pt);
    BOTTOMPADDING (0, 0) (-1, 0) (12 * pt);
    BACKGROUND (0, 1) (-1, -1) (NamedColor "beige");
    GRID (0, 0) (-1, -1) (1 * pt) (NamedColor "black");
    FONTNAME (0, -1) (-1, -1) "Helvetica-Bold";
    BACKGROUND (0, -1) (-1, -1) (HexColor "#f39c12") ].

Definition economic_style (last_row_fill : color) : list style_cmd :=
  [ BACKGROUND (0, 0) (-1, 0) (HexColor "#3498db");
    TEXTCOLOR (0, 0) (-1, 0) (NamedColor "whitesmoke");
    ALIGN (0, 0) (-1, -1) "LEFT";
    ALIGN (1, 1) (1, -1) "RIGHT";
    FONTNAME (0, 0) (-1, 0) "Helvetica-Bold";
    FONTSIZE (0, 0) (-1, 0) (12 * pt);
    BOTTOMPADDING (0, 0) (-1, 0) (12 * pt);
    BACKGROUND (0, 1) (-1, -1) (NamedColor "lightblue");
    GRID (0, 0) (-1, -1) (1 * pt) (NamedColor "black");
    FONTNAME (0, -1) (-1, -1) "Helvetica-Bold";
    BACKGROUND (0, -1) (-1, -1) last_row_fill ].

Definition sig_style : list style_cmd :=
  [ ALIGN (0, 0) (-1, -1) "CENTER";
    FONTNAME (0, 2) (-1, -1) "Helvetica-Bold";
    FONTSIZE (0, 2) (-1, 2) (10 * pt);
    FONTSIZE (0, 3) (-1, 3) (9 * pt) ].

Definition warning_text : string :=
  "<b>⚠️ OFFICIAL NOTICE ⚠️</b><br/>" +:+
  "This report contains classified information regarding the true size of your chicken flock. " +:+
  "The discrepancies found during this audit are NOT your fault. Chicken Math is a scientifically " +:+
  "proven phenomenon affecting 99.7% of backyard chicken owners.".

Definition rec_text (purchase : string) : string :=
  nl +:+
  "    Based on our comprehensive audit of your chicken operation, the Department of Chicken Mathematics " +:+ nl +:+
  "    hereby recommends the following action:<br/><br/>" +:+ nl +:+
  "    <b>Recommended Purchase:</b> " +:+ purchase +:+ "<br/><br/>" +:+ nl +:+
  "    This recommendation is based on your current flock size, production levels, and the undeniable " +:+ nl +:+
  "    laws of Chicken Math. Compliance is voluntary but highly encouraged for optimal chicken happiness." +:+ nl +:+
  "    ".

Definition facts : list string :=
  [ "• The Chicken Math Formula has been scientifically proven in over 1 million backyard coops";
    "• 97% of chicken owners underestimate their true flock size by at least 40%";
    "• The primary cause of Chicken Math is 'just one more won't hurt' syndrome";
    "• Most chicken owners experience Chicken Math within 6 months of their first purchase";
    "• There is no known cure for Chicken Math, only acceptance" ].

Definition cert_text : string :=
  nl +:+
  "    This report has been prepared in accordance with the Official Chicken Math Standards (OCMS) " +:+ nl +:+
  "    and the International Backyard Poultry Guidelines (IBPG). All calculations have been verified " +:+ nl +:+
  "    by certified Chicken Mathematicians.<br/><br/>" +:+ nl +:+
  "    This document serves as official proof that you are not crazy—you really do have more chickens " +:+ nl +:+
  "    than you thought you had." +:+ nl +:+
  "    ".

Fixpoint repeat_char (c : ascii) (n : nat) : string :=
  match n with
  | O => EmptyString
  | S n' => String c (repeat_char c n')
  end.

Definition sig_data : list (list string) :=
  [ [""; ""];
    [repeat_char "_" 40; repeat_char "_" 40];
    ["Chief Chicken Mathematician"; "Department Director"];
    ["Dr. Henrietta Clucksworth"; "Colonel Sanders III"] ].

Section Composer.
Context {rt : Runtime}.

(** [Paragraph(text, style)]. *)
Definition paragraph (text : pyval) (st : ParagraphStyle) : result flowable :=
  match paragraph_init text st with
  | Some e => Raise e
  | None => Ok (Paragraph text st)
  end.

(** [add_page_number(canvas, doc)]: the header and the footer of one page;
    [now] is the clock when the page is drawn, [page_num] is
    [canvas.getPageNumber()]. *)
Definition add_page_number (now : date) (page_num : Z)
  : result (list canvas_op) :=
  n ← int_str page_num;
  Ok [ saveState;
       setFont "Helvetica-Bold" (10 * pt);
       setFillColor (HexColor "#e74c3c");
       drawString inch (snd letter - inch / 2)
         "DEPARTMENT OF CHICKEN MATHEMATICS";
       drawString (fst letter - 3 * inch) (snd letter - inch / 2)
         ("Report Date: " +:+ strftime_long now);
       setFont "Helvetica" (9 * pt);
       setFillColor (NamedColor "grey");
       drawCentredString (fst letter / 2) (inch / 2)
         ("Page " +:+ n +:+ " | CONFIDENTIAL - For Chicken Owner Use Only");
       restoreState ].

(** Lines 154-159: the rows of the findings table. *)
Definition flock_data (data : pyval) : result (list (list string)) :=
  current ← py_get data "current_flock" (PInt 0);
  current_s ← py_str current;
  real ← py_get data "real_flock" (PInt 0);
  real_s ← py_str real;
  real' ← py_get data "real_flock" (PInt 0);
  current' ← py_get data "current_flock" (PInt 0);
  discrepancy ← py_sub real' current';
  discrepancy_s ← py_str discrepancy;
  Ok [ ["Category"; "Count"; "Status"];
       ["Chickens You Admit To Owning"; current_s; "✓"];
       ["Actual Chicken Count (Per Audit)"; real_s; "⚠️"];
       ["Discrepancy"; discrepancy_s; "CRITICAL"] ].

(** Lines 181-187: the rows of the economics table. *)
Definition economic_data (data : pyval) : result (list (list string)) :=
  eggs ← py_get data "yearly_eggs" (PInt 0);
  eggs_s ← py_format_comma eggs;
  revenue ← py_get data "egg_revenue" (PInt 0);
  revenue_s ← py_format_money revenue;
  cost ← py_get data "feed_cost" (PInt 0);
  cost_s ← py_format_money cost;
  profit ← py_get data "net_profit" (PInt 0);
  profit_s ← py_format_money profit;
  Ok [ ["Metric"; "Annual Amount"];
       ["Projected Egg Production"; eggs_s +:+ " eggs"];
       ["Egg Revenue Value"; "$" +:+ revenue_s];
       ["Feed & Bedding Costs"; "$" +:+ cost_s];
       ["Net Financial Impact"; "$" +:+ profit_s] ].

(** Line 201: the fill of the last row of the economics table. *)
Definition profit_fill (data : pyval) : result color :=
  profit ← py_get data "net_profit" (PInt 0);
  nonneg ← py_ge_zero profit;
  Ok (if nonneg : bool then positive_fill else negative_fill).

(** Lines 119-210: the flowables of page 1, in the order they are
    appended. *)
Definition page1_elements (data : pyval) (now : date)
  : result (list flowable) :=
  title ← paragraph (PStr "🐔 OFFICIAL CHICKEN MATH AUDIT REPORT 🐔") title_style;
  stamp ← paragraph (PStr "★ OFFICIAL CERTIFIED ★") stamp_style;
  name ← py_get data "name" (PStr "Chicken Owner");
  name_s ← py_str name;
  owner_info ← paragraph (PStr ("<b>Prepared For:</b> " +:+ name_s))
                 subtitle_style;
  date_info ← paragraph (PStr ("<b>Audit Date:</b> " +:+ strftime_long now))
                body_style;
  warning ← paragraph (PStr warning_text) body_style;
  section1 ← paragraph (PStr "<b>SECTION 1: FLOCK SIZE FINDINGS</b>")
               subtitle_style;
  flock ← flock_data data;
  section2 ← paragraph (PStr "<b>SECTION 2: ECONOMIC IMPACT ANALYSIS</b>")
               subtitle_style;
  economic ← economic_data data;
  fill ← profit_fill data;
  heading ← paragraph (PStr "<b>OFFICIAL ASSESSMENT:</b>") subtitle_style;
  quote ← py_get data "funny_quote" (PStr "No assessment provided.");
  assessment ← paragraph quote body_style;
  Ok [ title; Spacer (1 * pt) (inch * 2 / 10);
       stamp; Spacer (1 * pt) (inch * 3 / 10);
       owner_info; Spacer (1 * pt) (inch * 1 / 10);
       date_info; Spacer (1 * pt) (inch * 3 / 10);
       warning; Spacer (1 * pt) (inch * 3 / 10);
       section1;
       Table flock [3 * inch; inch * 15 / 10; 1 * inch] flock_style;
       Spacer (1 * pt) (inch * 3 / 10);
       section2;
       Table economic [inch * 35 / 10; 2 * inch] (economic_style fill);
       Spacer (1 * pt) (inch * 3 / 10);
       heading; assessment ].

(** Lines 245-246: one paragraph per fact. *)
Fixpoint fact_paragraphs (l : list string) : result (list flowable) :=
  match l with
  | [] => Ok []
  | fact :: rest =>
      p ← paragraph (PStr fact) body_style;
      ps ← fact_paragraphs rest;
      Ok (p :: ps)
  end.

(** Lines 215-284: the flowables of page 2. *)
Definition page2_elements (data : pyval) : result (list flowable) :=
  page2_title ← paragraph (PStr "OFFICIAL RECOMMENDATIONS & CERTIFICATION")
                  title_style;
  section3 ← paragraph (PStr "<b>SECTION 3: DEPARTMENT RECOMMENDATIONS</b>")
               subtitle_style;
  purchase ← py_get data "recommended_purchase"
               (PStr "Premium Chicken Care Package");
  purchase_s ← py_str purchase;
  recommendation ← paragraph (PStr (rec_text purchase_s)) body_style;
  section4 ← paragraph (PStr "<b>SECTION 4: OFFICIAL CHICKEN MATH FACTS</b>")
               subtitle_style;
  fact_ps ← fact_paragraphs facts;
  cert_heading ← paragraph (PStr "<b>OFFICIAL CERTIFICATION</b>")
                   subtitle_style;
  certification ← paragraph (PStr cert_text) body_style;
  footer_stamp ← paragraph
      (PStr "★ OFFICIAL GOVERNMENT DOCUMENT ★<br/><br/>NOT VALID WITHOUT CHICKEN STAMP")
      stamp_style;
  Ok ([ page2_title; Spacer (1 * pt) (inch * 3 / 10);
        section3; recommendation; Spacer (1 * pt) (inch * 3 / 10);
        section4 ]
      ++ fact_ps ++
      [ Spacer (1 * pt) (inch * 4 / 10);
        cert_heading; certification; Spacer (1 * pt) (inch * 4 / 10);
        Table sig_data [inch * 275 / 100; inch * 275 / 100] sig_style;
        Spacer (1 * pt) (inch * 3 / 10);
        footer_stamp ]).

(** The list [elements] when [doc.build] is reached (line 287). *)
Definition story (data : pyval) (now : date) : result (list flowable) :=
  page1 ← page1_elements data now;
  page2 ← page2_elements data;
  Ok (page1 ++ [PageBreak] ++ page2).

Definition log_call (data : pyval) (output_filename : string) (w : world)
  : world :=
  {| fs := fs w; stdout := stdout w; app_log := app_log w;
     composer_calls := composer_calls w ++ [(data, output_filename)] |}.

(** [generate_chicken_math_pdf(data, output_filename)]: the value returned
    or the exception raised, and the world afterwards. *)
Definition generate_chicken_math_pdf (data : pyval) (output_filename : string)
    (now : date) (w : world) : result string * world :=
  let w := log_call data output_filename w in
  match story data now with
  | Raise e => (Raise e, w)
  | Ok elements =>
      match doc_build output_filename elements add_page_number
              add_page_number (fs w) with
      | (Some e, fs') =>
          (Raise e,
           {| fs := fs'; stdout := stdout w; app_log := app_log w;
              composer_calls := composer_calls w |})
      | (None, fs') =>
          (Ok output_filename,
           {| fs := fs';
              stdout := stdout w ++
                ["PDF generated successfully: " +:+ output_filename];
              app_log := app_log w;
              composer_calls := composer_calls w |})
      end
  end.

End Composer.

(** ** api_server.py *)

Section FrontEnd.
Context {rt : Runtime}.

Definition required_fields : list string :=
  [ "name"; "current_flock"; "real_flock"; "yearly_eggs";
    "egg_revenue"; "feed_cost"; "net_profit"; "funny_quote" ].

(** Line 59: [[field for field in required_fields if field not in data]]. *)
Fixpoint missing_among (fields : list string) (data : pyval)
  : result (list string) :=
  match fields with
  | [] => Ok []
  | field :: rest =>
      present ← py_contains data field;
      others ← missing_among rest data;
      Ok (if present : bool then others else field :: others)
  end.

Definition missing_fields (data : pyval) : result (list string) :=
  missing_among required_fields data.

(** [jsonify({...}), code]. *)
Definition jsonify (code : Z) (fields : list (string * pyval)) : response :=
  {| status := code; body := JsonPayload (PDict (list_to_map fields));
     on_close := None |}.

Definition missing_response (missing : list string) : response :=
  jsonify 400 [ ("error", PStr "Missing required fields");
                ("missing", PList (PStr <$> missing)) ].

(** The [except Exception as e] block of both routes. *)
Definition generation_error (e : exn) (w : world) : response * world :=
  (jsonify 500 [ ("error", PStr "Failed to generate PDF");
                 ("message", PStr (exn_str e)) ],
   {| fs := fs w; stdout := stdout w;
      app_log := app_log w ++ ["Error generating PDF: " +:+ exn_str e];
      composer_calls := composer_calls w |}).

(** [os.path.join(tempfile.gettempdir(), f"chicken_math_{uuid.uuid4()}.pdf")]. *)
Definition temp_pdf_path (temp_dir uuid : string) : string :=
  path_join temp_dir ("chicken_math_" +:+ uuid +:+ ".pdf").

(** [f"Chicken_Math_Report_{data['name'].replace(' ', '_')}.pdf"]. *)
Definition report_filename (data : pyval) : result string :=
  name ← py_getitem data "name";
  underscored ← py_replace_space name;
  Ok ("Chicken_Math_Report_" +:+ underscored +:+ ".pdf").

(** [send_file(filename, as_attachment=True, download_name=...,
    mimetype='application/pdf')] followed by [response.call_on_close]. *)
Definition send_file (filename download : string) (w : world)
  : result response :=
  match fs w !! filename with
  | None => Raise OSError
  | Some content =>
      Ok {| status := 200;
            body := FilePayload filename content download
                      "application/pdf" true;
            on_close := Some filename |}
  end.

(** [POST /generate-pdf].  [json] is what evaluating [request.json] gives;
    [temp_dir] and [uuid] are the results of [tempfile.gettempdir()] and
    [uuid.uuid4()]. *)
Definition generate_pdf (json : result pyval) (temp_dir uuid : string)
    (now : date) (w : world) : response * world :=
  match json with
  | Raise e => generation_error e w
  | Ok data =>
      match missing_fields data with
      | Raise e => generation_error e w
      | Ok (field :: others) => (missing_response (field :: others), w)
      | Ok [] =>
          let filename := temp_pdf_path temp_dir uuid in
          match generate_chicken_math_pdf data filename now w with
          | (Raise e, w') => generation_error e w'
          | (Ok _, w') =>
              match download ← report_filename data;
                    send_file filename download w' with
              | Raise e => generation_error e w'
              | Ok resp => (resp, w')
              end
          end
      end
  end.

(** The [cleanup] hook of [generate_pdf], run when the response is closed. *)
Definition close_response (resp : response) (w : world) : world :=
  match on_close resp with
  | Some filename =>
      {| fs := delete filename (fs w); stdout := stdout w;
         app_log := app_log w; composer_calls := composer_calls w |}
  | None => w
  end.

(** [POST /generate-pdf-base64]. *)
Definition generate_pdf_base64 (json : result pyval) (temp_dir uuid : string)
    (now : date) (w : world) : response * world :=
  match json with
  | Raise e => generation_error e w
  | Ok data =>
      let filename := temp_pdf_path temp_dir uuid in
      match generate_chicken_math_pdf data filename now w with
      | (Raise e, w') => generation_error e w'
      | (Ok _, w') =>
          match fs w' !! filename with
          | None => generation_error OSError w'
          | Some pdf_data =>
              let encoded := b64encode pdf_data in
              let w'' := {| fs := delete filename (fs w');
                            stdout := stdout w'; app_log := app_log w';
                            composer_calls := composer_calls w' |} in
              match report_filename data with
              | Raise e => generation_error e w''
              | Ok name =>
                  (jsonify 200 [ ("success", PBool true);
                                 ("pdf_base64", PStr encoded);
                                 ("filename", PStr name) ],
                   w'')
              end
          end
      end
  end.

End FrontEnd.

(** ** A runtime in which the libraries accept every input

    Used to run the scripts on concrete requests: paragraphs are built from
    any [str], and [doc.build] writes the file (here with the fixed
    content [doc_bytes]). *)

Definition doc_bytes : list Byte.byte :=
  [Byte.x25; Byte.x50; Byte.x44; Byte.x46].

Definition exn_name (e : exn) : string :=
  match e with
  | TypeError => "TypeError"
  | ValueError => "ValueError"
  | AttributeError => "AttributeError"
  | KeyError => "KeyError"
  | OverflowError => "OverflowError"
  | OSError => "OSError"
  | HTTPException _ => "HTTPException"
  | LibraryError tag => tag
  end.

Definition reference_runtime : Runtime :=
  {| int_max_str_digits := 4300;
     float_repr := fun _ => "float";
     float_format_comma := fun _ => "float";
     container_repr := fun _ => Ok "container";
     exn_str := exn_name;
     paragraph_init := fun text _ =>
       match text with
       | PStr _ => None
       | _ => Some AttributeError
       end;
     doc_build := fun filename _ _ _ files => (None, <[filename := doc_bytes]> files);
     b64encode := fun _ => "JVBERg==" |}.

Definition empty_world : world :=
  {| fs := ∅; stdout := []; app_log := []; composer_calls := [] |}.

Definition sample_date : date := {| year := 2024; mon := March; day := 5 |}.

(** The request of the repository's own example (section 8 of the
    specification): Jane Doe, 6 declared and 11 audited chickens. *)
Definition f817 : spec_float := S754_finite false 7186407999143936 (-43).
Definition f1573 : spec_float := S754_finite false 6918127161966592 (-42).
Definition f756 : spec_float := S754_finite false 6649846324789248 (-43).

Definition jane : gmap string pyval :=
  list_to_map
    [ ("name", PStr "Jane Doe"); ("current_flock", PInt 6);
      ("real_flock", PInt 11); ("yearly_eggs", PInt 3146);
      ("egg_revenue", PFloat f1573); ("feed_cost", PFloat f756);
      ("net_profit", PFloat f817); ("funny_quote", PStr "test") ].

(** ** Reading a story and a response *)

Definition table_of (f : flowable)
  : option (list (list string) * list style_cmd) :=
  match f with
  | Table cells _ st => Some (cells, st)
  | _ => None
  end.

(** The tables of a story, in order: findings, economics, signatures. *)
Definition tables (els : list flowable)
  : list (list (list string) * list style_cmd) :=
  omap table_of els.

Definition findings_table (els : list flowable) := tables els !! 0%nat.
Definition economics_table (els : list flowable) := tables els !! 1%nat.

Definition cell (cells : list (list string)) (row col : nat) : option string :=
  r ← cells !! row; r !! col.

(** How reportlab resolves a cell range: a negative index counts from the
    end, and a later [BACKGROUND] paints over an earlier one. *)
Definition norm_index (n i : Z) : Z := if i <? 0 then n + i else i.

Definition covers (ncols nrows : Z) (start stop : Z * Z) (col row : Z) : bool :=
  (norm_index ncols (fst start) <=? col) &&
  (col <=? norm_index ncols (fst stop)) &&
  (norm_index nrows (snd start) <=? row) &&
  (row <=? norm_index nrows (snd stop)).

Definition paint (ncols nrows col row : Z) (acc : option color)
    (cmd : style_cmd) : option color :=
  match cmd with
  | BACKGROUND start stop c =>
      if covers ncols nrows start stop col row then Some c else acc
  | _ => acc
  end.

Definition background_at (st : list style_cmd) (ncols nrows col row : Z)
  : option color :=
  fold_left (paint ncols nrows col row) st None.

(** The fill of column [col] in the last row of a table. *)
Definition last_row_fill (t : list (list string) * list style_cmd) (col : Z)
  : option color :=
  let nrows := Z.of_nat (length (fst t)) in
  let ncols := Z.of_nat (length (default [] (head (fst t)))) in
  background_at (snd t) ncols nrows col (nrows - 1).


Definition is_page_break (f : flowable) : bool :=
  match f with
  | PageBreak => true
  | _ => false
  end.

Definition json_field (resp : response) (key : string) : option pyval :=
  match body resp with
  | JsonPayload (PDict m) => m !! key
  | _ => None
  end.

Definition attachment_name (resp : response) : option string :=
  match body resp with
  | FilePayload _ _ download _ _ => Some download
  | JsonPayload _ => None
  end.

(** The shape [{error, message}] of a generation error. *)
Definition generation_error_shape (resp : response) : Prop :=
  exists message,
    resp = jsonify 500 [ ("error", PStr "Failed to generate PDF");
                         ("message", PStr message) ].

(** ** The shape of rendered numbers *)

Definition digit (c : ascii) : Prop := is_digit c = true.

(** Digits in groups of three separated by commas; the leading group has
    one to three digits. *)
Inductive grouped : list ascii -> Prop :=
| grouped_lead ds :
    Forall digit ds -> (1 <= length ds <= 3)%nat -> grouped ds
| grouped_more g ds :
    grouped g -> Forall digit ds -> length ds = 3%nat ->
    grouped (g ++ ","%char :: ds).




Definition nonnegative_number (v : pyval) : Prop :=
  match v with
  | PInt z => 0 <= z
  | PBool _ => True
  | PFloat (S754_zero _) => True
  | PFloat (S754_finite s _ _) | PFloat (S754_infinity s) => s = false
  | _ => False
  end.

Definition negative_number (v : pyval) : Prop :=
  match v with
  | PInt z => z < 0
  | PFloat (S754_finite s _ _) | PFloat (S754_infinity s) => s = true
  | _ => False
  end.

(** The decimal numeral of an integer, as the standard library prints it. *)
Definition decimal (z : Z) : string := NilZero.string_of_int (Z.to_int z).

(** Reading a decimal numeral back. *)
Definition read_decimal (s : string) : option Z :=
  Z.of_int <$> NilZero.int_of_string s.

(** ** The documented defaults of the composer *)

Definition documented_defaults : gmap string pyval :=
  list_to_map
    [ ("name", PStr "Chicken Owner");
      ("current_flock", PInt 0); ("real_flock", PInt 0);
      ("yearly_eggs", PInt 0); ("egg_revenue", PInt 0);
      ("feed_cost", PInt 0); ("net_profit", PInt 0);
      ("funny_quote", PStr "No assessment provided.");
      ("recommended_purchase", PStr "Premium Chicken Care Package") ].

(** [data.get(key, dflt)] on a dict, as a total function. *)
Definition field (d : gmap string pyval) (key : string) (dflt : pyval) : pyval :=
  default dflt (d !! key).

(** A body that parsed as a JSON object. *)
Definition json_object (json : result pyval) : Prop :=
  exists d, json = Ok (PDict d).

(** [request.json] raised (no body, malformed body, wrong content type), or
    gave [None], a number or a boolean: values with no [in] operator. *)
Definition raises_or_scalar (json : result pyval) : Prop :=
  match json with
  | Raise _ => True
  | Ok (PNone | PBool _ | PInt _ | PFloat _) => True
  | Ok _ => False
  end.

Definition only_name : gmap string pyval :=
  {[ "name" := PStr "Jane Doe" ]}.

Definition underscore_space (c : ascii) : ascii :=
  if Ascii.eqb c " " then "_"%char else c.



(** A request whose audited count is below the declared one. *)
Definition grumpy : gmap string pyval :=
  list_to_map [ ("current_flock", PInt 10); ("real_flock", PInt 3) ].

(** A string body in which every required name occurs. *)
Definition all_names_text : string :=
  "name current_flock real_flock yearly_eggs egg_revenue feed_cost net_profit funny_quote".

(** A request that lost money. *)
Definition in_the_red : gmap string pyval :=
  <["net_profit" := PInt (-120)]> jane.

(** ** More of api_server.py: the two static routes *)

(** [GET /]. *)
Definition home : response :=
  jsonify 200
    [ ("service", PStr "Chicken Math PDF Generator API");
      ("version", PStr "1.0");
      ("endpoints",
       PDict (list_to_map
                [ ("/generate-pdf", PStr "POST - Generate PDF report");
                  ("/health", PStr "GET - Health check") ])) ].

(** [GET /health]. *)
Definition health : response :=
  jsonify 200 [ ("status", PStr "healthy");
                ("service", PStr "chicken-math-pdf-api") ].

(** ** Further observations *)

(** An [int], a [bool] or a [float]: the values arithmetic and the numeric
    format codes accept. *)
Definition is_number (v : pyval) : Prop :=
  match v with
  | PInt _ | PBool _ | PFloat _ => True
  | _ => False
  end.

Definition has_space (s : string) : bool :=
  existsb (Ascii.eqb " ") (list_ascii_of_string s).

Definition starts_with_minus (s : string) : bool :=
  match s with
  | String c _ => Ascii.eqb c "-"
  | EmptyString => false
  end.

(** The rows and columns of a table. *)
Definition dims (t : list (list string) * list style_cmd) : list nat :=
  length <$> fst t.

(** A complete request whose [name] is a number. *)
Definition numbered : gmap string pyval := <["name" := PInt 5]> jane.

(** A request that has every key but a JSON null for [net_profit]. *)
Definition null_profit : gmap string pyval := <["net_profit" := PNone]> jane.

(** A world in which another file exists. *)
Definition busy_world : world :=
  {| fs := {[ "/tmp/other.txt" := [Byte.x68; Byte.x69] ]};
     stdout := []; app_log := []; composer_calls := [] |}.

(** ** The runs of the two generation routes

    One constructor per way through the handler, in the order of the
    source; [path] is the temporary file. *)

Section RunShapes.
Context {rt : Runtime}.

(** Every run of [generate_pdf] is one of these. *)
Inductive pdf_run (json : result pyval) (path : string) (now : date)
    (w : world) : response -> world -> Prop :=
| pdf_no_json e :
    json = Raise e ->
    pdf_run json path now w (fst (generation_error e w))
      (snd (generation_error e w))
| pdf_unvalidated data e :
    json = Ok data -> missing_fields data = Raise e ->
    pdf_run json path now w (fst (generation_error e w))
      (snd (generation_error e w))
| pdf_missing data missing :
    json = Ok data -> missing_fields data = Ok missing -> missing <> [] ->
    pdf_run json path now w (missing_response missing) w
| pdf_not_composed data e w1 :
    json = Ok data -> missing_fields data = Ok [] ->
    generate_chicken_math_pdf data path now w = (Raise e, w1) ->
    pdf_run json path now w (fst (generation_error e w1))
      (snd (generation_error e w1))
| pdf_not_named data returned e w1 :
    json = Ok data -> missing_fields data = Ok [] ->
    generate_chicken_math_pdf data path now w = (Ok returned, w1) ->
    report_filename data = Raise e ->
    pdf_run json path now w (fst (generation_error e w1))
      (snd (generation_error e w1))
| pdf_not_found data returned download w1 :
    json = Ok data -> missing_fields data = Ok [] ->
    generate_chicken_math_pdf data path now w = (Ok returned, w1) ->
    report_filename data = Ok download ->
    fs w1 !! path = None ->
    pdf_run json path now w (fst (generation_error OSError w1))
      (snd (generation_error OSError w1))
| pdf_sent data returned download content w1 :
    json = Ok data -> missing_fields data = Ok [] ->
    generate_chicken_math_pdf data path now w = (Ok returned, w1) ->
    report_filename data = Ok download ->
    fs w1 !! path = Some content ->
    pdf_run json path now w
      {| status := 200;
         body := FilePayload path content download "application/pdf" true;
         on_close := Some path |} w1.

(** Every run of [generate_pdf_base64] is one of these. *)
Inductive base64_run (json : result pyval) (path : string) (now : date)
    (w : world) : response -> world -> Prop :=
| b64_no_json e :
    json = Raise e ->
    base64_run json path now w (fst (generation_error e w))
      (snd (generation_error e w))
| b64_not_composed data e w1 :
    json = Ok data ->
    generate_chicken_math_pdf data path now w = (Raise e, w1) ->
    base64_run json path now w (fst (generation_error e w1))
      (snd (generation_error e w1))
| b64_not_found data returned w1 :
    json = Ok data ->
    generate_chicken_math_pdf data path now w = (Ok returned, w1) ->
    fs w1 !! path = None ->
    base64_run json path now w (fst (generation_error OSError w1))
      (snd (generation_error OSError w1))
| b64_not_named data returned pdf_data e w1 w2 :
    json = Ok data ->
    generate_chicken_math_pdf data path now w = (Ok returned, w1) ->
    fs w1 !! path = Some pdf_data ->
    w2 = {| fs := delete path (fs w1); stdout := stdout w1;
            app_log := app_log w1; composer_calls := composer_calls w1 |} ->
    report_filename data = Raise e ->
    base64_run json path now w (fst (generation_error e w2))
      (snd (generation_error e w2))
| b64_sent data returned pdf_data name w1 :
    json = Ok data ->
    generate_chicken_math_pdf data path now w = (Ok returned, w1) ->
    fs w1 !! path = Some pdf_data ->
    report_filename data = Ok name ->
    base64_run json path now w
      (jsonify 200 [ ("success", PBool true);
                     ("pdf_base64", PStr (b64encode pdf_data));
                     ("filename", PStr name) ])
      {| fs := delete path (fs w1); stdout := stdout w1;
         app_log := app_log w1; composer_calls := composer_calls w1 |}.

End RunShapes.

(** The shape of a table: the length of each row and the number of column
    widths given. *)
Definition table_shape (f : flowable) : option (list nat * nat) :=
  match f with
  | Table cells widths _ => Some (length <$> cells, length widths)
  | _ => None
  end.

Definition rectangular (shape : list nat * nat) : Prop :=
  Forall (fun n => n = snd shape) (fst shape).

(** A request whose profit is the float [-0.0], and one whose profit is
    the float nearest to [-0.001]. *)
Definition minus_zero : gmap string pyval :=
  <["net_profit" := PFloat (S754_zero true)]> jane.

Definition tiny_loss : gmap string pyval :=
  <["net_profit" := PFloat (S754_finite true 4611686018427388 (-62))]> jane.

(** The sample of the [__main__] block. *)
Definition sample_data : gmap string pyval :=
  list_to_map
    [ ("name", PStr "Jane Chicken Lover"); ("current_flock", PInt 6);
      ("real_flock", PInt 11); ("yearly_eggs", PInt 3146);
      ("egg_revenue", PFloat f1573); ("feed_cost", PFloat f756);
      ("net_profit", PFloat f817);
      ("funny_quote",
       PStr "You're making a whopping $817.00 per year! That's almost enough to cover the emergency vet visit when one chicken looks at you funny at 3am. Worth it! 🐔💕");
      ("recommended_purchase",
       PStr "Premium Feed Upgrade Package + Coop Expansion Kit");
      ("meme_image_url", PNone) ].

(** * Properties *)

(** ** Digits, grouping and amounts *)

Lemma chars_app (s t : string) :
  list_ascii_of_string (s +:+ t) = list_ascii_of_string s ++ list_ascii_of_string t.
Proof. induction s as [|c s IH]; simpl; [done | by rewrite IH]. Qed.


Lemma nilempty_digits (d : uint) :
  Forall digit (list_ascii_of_string (NilEmpty.string_of_uint d)).
Proof.
  induction d; simpl; constructor; try done.
Qed.

Lemma digits_of_N_digits (n : N) :
  Forall digit (list_ascii_of_string (digits_of_N n)).
Proof.
  unfold digits_of_N, NilZero.string_of_uint.
  destruct (N.to_uint n) eqn:E; try apply (nilempty_digits (_ _)).
  simpl. repeat constructor.
Qed.

Lemma digits_of_N_nonempty (n : N) : digits_of_N n <> EmptyString.
Proof.
  unfold digits_of_N, NilZero.string_of_uint.
  destruct (N.to_uint n); simpl; discriminate.
Qed.

(** Grouping, on the digits least significant first. *)
Lemma group3_rev_grouped (n : nat) : forall l : list ascii,
  (length l <= n)%nat -> l <> [] -> Forall digit l ->
  grouped (rev (group3_rev l)).
Proof.
  induction n as [|n IH]; intros l Hlen Hne Hd.
  - destruct l; [done | simpl in Hlen; lia].
  - destruct l as [|a [|b [|c [|d more]]]]; try done.
    + apply grouped_lead; [by apply Forall_rev | simpl; lia].
    + apply grouped_lead; [by apply Forall_rev | simpl; lia].
    + apply grouped_lead; [by apply Forall_rev | simpl; lia].
    + change (group3_rev (a :: b :: c :: d :: more))
        with (a :: b :: c :: ","%char :: group3_rev (d :: more)).
      change (a :: b :: c :: ","%char :: group3_rev (d :: more))
        with ([a; b; c] ++ ","%char :: group3_rev (d :: more)).
      rewrite rev_app_distr. simpl rev at 2.
      change (rev (","%char :: group3_rev (d :: more)))
        with (rev (group3_rev (d :: more)) ++ [","%char]).
      rewrite <- app_assoc. simpl app at 2.
      inversion Hd as [|? ? Ha Hd1]; subst.
      inversion Hd1 as [|? ? Hb Hd2]; subst.
      inversion Hd2 as [|? ? Hc Hd3]; subst.
      apply grouped_more.
      * apply IH; [simpl in *; lia | done | done].
      * repeat constructor; done.
      * done.
Qed.

Lemma group_thousands_grouped (ds : string) :
  ds <> EmptyString -> Forall digit (list_ascii_of_string ds) ->
  exists g, group_thousands ds = string_of_list_ascii g /\ grouped g.
Proof.
  intros Hne Hd. unfold group_thousands. eexists; split; [reflexivity |].
  apply (group3_rev_grouped (length (rev (list_ascii_of_string ds)))).
  - done.
  - destruct ds; [done | simpl]. intros H. by apply app_eq_nil in H as [_ ?].
  - by apply Forall_rev.
Qed.





(** ** [float(z)] is a number

    Rounding a non-negative mantissa never produces a NaN, so [float(z)]
    is a zero, a finite float, or raises. *)
Lemma shr_1_nonneg mrs : 0 <= shr_m mrs -> 0 <= shr_m (shr_1 mrs).
Proof.
  destruct mrs as [m r s]. simpl.
  destruct m as [|p|p]; [done | | lia].
  destruct p; simpl; lia.
Qed.

Lemma iter_shr_1_nonneg (p : positive) : forall mrs,
  0 <= shr_m mrs -> 0 <= shr_m (SpecFloat.iter_pos shr_1 p mrs).
Proof.
  induction p as [p IH|p IH|]; intros mrs H; simpl.
  - apply IH, IH, shr_1_nonneg, H.
  - apply IH, IH, H.
  - apply shr_1_nonneg, H.
Qed.

Lemma shr_fexp_nonneg prec emax m e l :
  0 <= m -> 0 <= shr_m (fst (shr_fexp prec emax m e l)).
Proof.
  intros Hm. unfold shr_fexp, shr.
  assert (H0 : 0 <= shr_m (shr_record_of_loc m l))
    by (destruct l as [|[]]; simpl; done).
  destruct (fexp prec emax (Zdigits2 m + e) - e); simpl;
    [done | by apply iter_shr_1_nonneg | done].
Qed.

Lemma round_nearest_even_nonneg m l : 0 <= m -> 0 <= round_nearest_even m l.
Proof.
  intros Hm. unfold round_nearest_even.
  destruct l as [|[]]; try lia. destruct (Z.even m); lia.
Qed.

Lemma binary_round_aux_not_nan prec emax sx mx ex lx :
  0 <= mx -> binary_round_aux prec emax sx mx ex lx <> S754_nan.
Proof.
  intros Hm. unfold binary_round_aux.
  pose proof (shr_fexp_nonneg prec emax mx ex lx Hm) as H1.
  destruct (shr_fexp prec emax mx ex lx) as [mrs' e']. simpl in H1.
  pose proof (shr_fexp_nonneg prec emax
                (round_nearest_even (shr_m mrs') (loc_of_shr_record mrs'))
                e' loc_Exact (round_nearest_even_nonneg _ _ H1)) as H2.
  destruct (shr_fexp prec emax _ e' loc_Exact) as [mrs'' e'']. simpl in H2.
  destruct (shr_m mrs''); [done | | lia].
  destruct (e'' <=? emax - prec); done.
Qed.

Lemma binary_normalize_not_nan prec emax m e szero :
  binary_normalize prec emax m e szero <> S754_nan.
Proof.
  unfold binary_normalize, binary_round.
  destruct m as [|p|p]; [done | |];
    destruct (shl_align _ _ _) as [mz ez];
    apply binary_round_aux_not_nan; lia.
Qed.



Lemma int_sign_digits z :
  sign_text (z <? 0) +:+ digits_of_N (Z.abs_N z) = decimal z.
Proof.
  unfold decimal, digits_of_N. destruct z; reflexivity.
Qed.

(** ** Reasoning about statement sequences *)

Lemma bind_Ok {A B} (r : result A) (k : A -> result B) (b : B) :
  r ≫= k = Ok b -> exists a, r = Ok a /\ k a = Ok b.
Proof. destruct r as [a|e]; simpl; [eauto | discriminate]. Qed.

Lemma bind_Ok_l {A B} (r : result A) (k : A -> result B) (a : A) :
  r = Ok a -> r ≫= k = k a.
Proof. by intros ->. Qed.

(** Split a successful block into its successful statements. *)
Ltac inv_block H :=
  repeat match type of H with
  | _ ≫= _ = Ok _ =>
      let a := fresh "v" in
      let Ha := fresh "Hv" in
      apply bind_Ok in H as (a & Ha & H)
  end.

Section StoryFacts.
Context {rt : Runtime}.

Lemma paragraph_Ok text st f :
  paragraph text st = Ok f -> f = Paragraph text st.
Proof.
  unfold paragraph. destruct (paragraph_init text st); congruence.
Qed.

Lemma fact_paragraphs_Ok (l : list string) : forall ps,
  fact_paragraphs l = Ok ps ->
  ps = map (fun fact => Paragraph (PStr fact) body_style) l.
Proof.
  induction l as [|fact l IH]; intros ps H; simpl in H.
  - by injection H as <-.
  - inv_block H. injection H as <-.
    apply paragraph_Ok in Hv as ->. by rewrite (IH _ Hv0).
Qed.

Lemma tables_app (a b : list flowable) : tables (a ++ b) = tables a ++ tables b.
Proof. apply omap_app. Qed.

(** What page 1 holds when it is built. *)
Lemma page1_elements_Ok data now p1 :
  page1_elements data now = Ok p1 ->
  exists flock economic fill,
    flock_data data = Ok flock /\ economic_data data = Ok economic /\
    profit_fill data = Ok fill /\
    tables p1 = [(flock, flock_style); (economic, economic_style fill)] /\
    forallb (fun f => negb (is_page_break f)) p1 = true.
Proof.
  unfold page1_elements. intros H. inv_block H. injection H as <-.
  repeat match goal with
  | Hp : paragraph _ _ = Ok _ |- _ => apply paragraph_Ok in Hp as ->
  end.
  eexists _, _, _. repeat split; eauto.
Qed.

(** What page 2 holds when it is built. *)
Lemma page2_elements_Ok data p2 :
  page2_elements data = Ok p2 ->
  tables p2 = [(sig_data, sig_style)] /\
  forallb (fun f => negb (is_page_break f)) p2 = true.
Proof.
  unfold page2_elements. intros H. inv_block H. injection H as <-.
  match goal with
  | Hf : fact_paragraphs _ = Ok _ |- _ => apply fact_paragraphs_Ok in Hf as ->
  end.
  repeat match goal with
  | Hp : paragraph _ _ = Ok _ |- _ => apply paragraph_Ok in Hp as ->
  end.
  split; reflexivity.
Qed.

Lemma story_Ok data now els :
  story data now = Ok els ->
  exists p1 p2,
    page1_elements data now = Ok p1 /\ page2_elements data = Ok p2 /\
    els = p1 ++ [PageBreak] ++ p2.
Proof.
  unfold story. intros H. inv_block H. injection H as <-. eauto.
Qed.

Lemma story_tables data now els :
  story data now = Ok els ->
  exists flock economic fill,
    flock_data data = Ok flock /\ economic_data data = Ok economic /\
    profit_fill data = Ok fill /\
    tables els = [ (flock, flock_style); (economic, economic_style fill);
                   (sig_data, sig_style) ].
Proof.
  intros H. apply story_Ok in H as (p1 & p2 & H1 & H2 & ->).
  apply page1_elements_Ok in H1 as (flock & economic & fill & ? & ? & ? & Ht1 & _).
  apply page2_elements_Ok in H2 as [Ht2 _].
  exists flock, economic, fill. repeat split; try done.
  rewrite !tables_app, Ht1, Ht2. reflexivity.
Qed.

End StoryFacts.

(** ** The findings table *)

Lemma read_decimal_decimal z : read_decimal (decimal z) = Some z.
Proof.
  unfold read_decimal, decimal.
  rewrite NilZero.isi.
  - simpl. by rewrite DecimalZ.of_to.
  - destruct z; simpl; try discriminate.
    intros [= H]. by apply Unsigned.to_uint_nonnil in H.
  - destruct z; simpl; try discriminate.
    intros [= H]. by apply Unsigned.to_uint_nonnil in H.
Qed.

Section Findings.
Context {rt : Runtime}.

Lemma int_str_Ok z s : int_str z = Ok s -> s = decimal z.
Proof.
  unfold int_str, int_digits.
  destruct (over_digit_limit _); simpl; [discriminate |].
  intros [= <-]. apply int_sign_digits.
Qed.

Lemma py_get_dict d key dflt :
  py_get (PDict d) key dflt = Ok (field d key dflt).
Proof. reflexivity. Qed.

Lemma py_sub_int a b x y :
  as_int a = Some x -> as_int b = Some y -> py_sub a b = Ok (PInt (x - y)).
Proof. unfold py_sub. by intros -> ->. Qed.

(** C1. For every request whose flock counts are integers (an absent count
    is 0), whenever the story is built, row 3 of the findings table is the
    [Discrepancy] row and its count cell is the decimal numeral of
    [real_flock - current_flock]: the numeral reads back as exactly that
    difference, negative or not. *)
Theorem discrepancy_is_difference (d : gmap string pyval) (now : date)
    (els : list flowable) (real current : Z) :
  as_int (field d "real_flock" (PInt 0)) = Some real ->
  as_int (field d "current_flock" (PInt 0)) = Some current ->
  story (PDict d) now = Ok els ->
  exists t text,
    findings_table els = Some t /\
    cell (fst t) 3 0 = Some "Discrepancy" /\
    cell (fst t) 3 1 = Some text /\
    text = decimal (real - current) /\
    read_decimal text = Some (real - current).
Proof.
  intros Hreal Hcur Hstory.
  apply story_tables in Hstory as (flock & economic & fill & Hf & _ & _ & Ht).
  unfold flock_data in Hf. rewrite !py_get_dict in Hf.
  inv_block Hf. injection Hf as <-.
  repeat match goal with
  | H : Ok _ = Ok _ |- _ => injection H as <-
  end.
  match goal with
  | Hs : py_sub _ _ = Ok _ |- _ =>
      rewrite (py_sub_int _ _ _ _ Hreal Hcur) in Hs; injection Hs as <-
  end.
  match goal with
  | Hs : py_str (PInt (real - current)) = Ok _ |- _ =>
      apply int_str_Ok in Hs as ->
  end.
  eexists _, _. unfold findings_table. rewrite Ht.
  repeat split; try reflexivity. apply read_decimal_decimal.
Qed.

End Findings.

Lemma discrepancy_is_difference_witness :
  exists els t,
    @story reference_runtime (PDict grumpy) sample_date = Ok els /\
    findings_table els = Some t /\
    cell (fst t) 3 1 = Some "-7".
Proof.
  destruct (@story reference_runtime (PDict grumpy) sample_date) as [els|e] eqn:E;
    [| vm_compute in E; discriminate].
  destruct (@discrepancy_is_difference reference_runtime grumpy sample_date
              els 3 10) as (t & text & Ht & _ & Hc & -> & _);
    [reflexivity | reflexivity | exact E |].
  exists els, t. repeat split; assumption.
Defined.

(** ** The fill of the last economics row *)

Section Economics.
Context {rt : Runtime}.

Lemma py_ge_zero_nonnegative v :
  nonnegative_number v -> py_ge_zero v = Ok true.
Proof.
  destruct v as [|b|z|f|s|l|m]; simpl; try done.
  - intros _. by destruct b.
  - intros H. f_equal. by apply Z.leb_le.
  - destruct f as [s|s| |s m e]; simpl; try done; by intros ->.
Qed.

Lemma py_ge_zero_negative v :
  negative_number v -> py_ge_zero v = Ok false.
Proof.
  destruct v as [|b|z|f|s|l|m]; simpl; try done.
  - intros H. f_equal. by apply Z.leb_gt.
  - destruct f as [s|s| |s m e]; simpl; try done; by intros ->.
Qed.

Lemma economic_data_dims data rows :
  economic_data data = Ok rows ->
  length rows = 5%nat /\ length (default [] (head rows)) = 2%nat.
Proof.
  unfold economic_data. intros H. inv_block H. by injection H as <-.
Qed.

Lemma economic_last_row_fill rows fill col :
  length rows = 5%nat -> length (default [] (head rows)) = 2%nat ->
  0 <= col < 2 ->
  last_row_fill (rows, economic_style fill) col = Some fill.
Proof.
  intros Hr Hc Hcol. unfold last_row_fill. simpl fst. simpl snd.
  rewrite Hr, Hc.
  assert (col = 0 \/ col = 1) as [-> | ->] by lia; reflexivity.
Qed.

(** C2. Whenever the story is built, both cells of the last row of the
    economics table are filled with one colour [fill]; [fill] is the
    positive colour when [net_profit] (0 when absent) is a number that is
    [>= 0] and the negative colour when it is a number that is [< 0]; the
    two colours differ; and [fill] is the same for every request with the
    same [net_profit] entry. *)
Theorem final_row_fill_follows_profit (d : gmap string pyval) (now : date)
    (els : list flowable) :
  story (PDict d) now = Ok els ->
  exists t fill,
    economics_table els = Some t /\
    (forall col, 0 <= col < 2 -> last_row_fill t col = Some fill) /\
    (nonnegative_number (field d "net_profit" (PInt 0)) ->
     fill = positive_fill) /\
    (negative_number (field d "net_profit" (PInt 0)) ->
     fill = negative_fill) /\
    positive_fill <> negative_fill /\
    (forall d' : gmap string pyval,
       d' !! "net_profit" = d !! "net_profit" ->
       profit_fill (PDict d') = Ok fill).
Proof.
  intros Hstory.
  apply story_tables in Hstory as (flock & economic & fill & _ & He & Hfill & Ht).
  exists (economic, economic_style fill), fill.
  unfold economics_table. rewrite Ht.
  destruct (economic_data_dims _ _ He) as [Hr Hc].
  split; [reflexivity |].
  split; [intros col Hcol; by apply economic_last_row_fill |].
  unfold profit_fill in Hfill. rewrite py_get_dict in Hfill.
  repeat split.
  - intros Hn. rewrite (bind_Ok_l _ _ _ eq_refl) in Hfill.
    rewrite (py_ge_zero_nonnegative _ Hn) in Hfill. by injection Hfill as <-.
  - intros Hn. rewrite (bind_Ok_l _ _ _ eq_refl) in Hfill.
    rewrite (py_ge_zero_negative _ Hn) in Hfill. by injection Hfill as <-.
  - discriminate.
  - intros d' Hd'. unfold profit_fill. rewrite py_get_dict.
    unfold field in *. by rewrite Hd'.
Qed.

End Economics.

Lemma final_row_fill_follows_profit_witness :
  exists els t,
    @story reference_runtime (PDict jane) sample_date = Ok els /\
    economics_table els = Some t /\
    last_row_fill t 0 = Some positive_fill /\
    last_row_fill t 1 = Some positive_fill.
Proof.
  destruct (@story reference_runtime (PDict jane) sample_date) as [els|e] eqn:E;
    [| vm_compute in E; discriminate].
  destruct (@final_row_fill_follows_profit reference_runtime jane sample_date
              els E) as (t & fill & Ht & Hfill & Hpos & _).
  rewrite (Hpos eq_refl) in Hfill.
  exists els, t. repeat split; [assumption | apply Hfill; lia | apply Hfill; lia].
Defined.

(** ** Validation of the required fields *)

Section Validation.
Context {rt : Runtime}.

(** On a dict the comprehension of line 59 keeps the absent names. *)
Lemma missing_among_dict (fields : list string) (d : gmap string pyval) :
  missing_among fields (PDict d)
  = Ok (filter (fun f => d !! f = None) fields).
Proof.
  induction fields as [|f fields IH]; [reflexivity |].
  cbn [missing_among]. rewrite IH. simpl.
  rewrite filter_cons.
  destruct (d !! f) as [v|] eqn:E.
  - rewrite bool_decide_eq_true_2 by eauto.
    destruct (decide (Some v = None)); [discriminate | reflexivity].
  - rewrite bool_decide_eq_false_2 by (intros [? ?]; discriminate).
    destruct (decide (None = None)); [reflexivity | done].
Qed.

Lemma required_fields_NoDup : NoDup required_fields.
Proof. apply (bool_decide_unpack _). by vm_compute. Qed.

(** C3. For every object body that lacks at least one required field,
    [/generate-pdf] answers 400 with a JSON object whose [missing] entry
    lists exactly the absent required names (each once, in the order of
    the required list), and the world is unchanged: the composer was not
    called and no file was written. *)
Theorem missing_fields_rejected (d : gmap string pyval)
    (temp_dir uuid : string) (now : date) (w : world) :
  (exists f, f ∈ required_fields /\ d !! f = None) ->
  exists missing,
    generate_pdf (Ok (PDict d)) temp_dir uuid now w
      = (missing_response missing, w) /\
    status (missing_response missing) = 400 /\
    json_field (missing_response missing) "missing"
      = Some (PList (PStr <$> missing)) /\
    (forall f, f ∈ missing <-> f ∈ required_fields /\ d !! f = None) /\
    NoDup missing.
Proof.
  intros (f & Hreq & Habs).
  exists (filter (fun f => d !! f = None) required_fields).
  assert (Hin : f ∈ filter (fun f => d !! f = None) required_fields)
    by (apply list_elem_of_filter; done).
  split; [| split; [reflexivity | split; [reflexivity | split]]].
  - unfold generate_pdf, missing_fields. rewrite missing_among_dict.
    destruct (filter _ required_fields); [by apply not_elem_of_nil in Hin | reflexivity].
  - intros g. rewrite list_elem_of_filter. tauto.
  - apply NoDup_filter, required_fields_NoDup.
Qed.

End Validation.

Lemma missing_fields_rejected_witness :
  exists missing,
    @generate_pdf reference_runtime (Ok (PDict (delete "net_profit" jane)))
      "/tmp" "0f8fad5b" sample_date empty_world
      = (missing_response missing, empty_world) /\
    "net_profit" ∈ missing /\ "name" ∉ missing.
Proof.
  destruct (@missing_fields_rejected reference_runtime
              (delete "net_profit" jane) "/tmp" "0f8fad5b" sample_date
              empty_world) as (missing & Hrun & _ & _ & Hm & _).
  - exists "net_profit". split; [| reflexivity].
    apply list_elem_of_In. simpl. tauto.
  - exists missing. split; [exact Hrun |]. split.
    + apply Hm. split; [| reflexivity]. apply list_elem_of_In. simpl. tauto.
    + intros Hin. apply Hm in Hin as [_ Hin]. vm_compute in Hin. discriminate.
Defined.

(** ** How the two routes can end *)

Section Routes.
Context {rt : Runtime}.

Lemma generation_error_has_shape e w :
  generation_error_shape (fst (generation_error e w)).
Proof. by exists (exn_str e). Qed.

Ltac error_shape :=
  cbv beta iota;
  match goal with
  | |- generation_error_shape (fst (generation_error ?e ?w)) =>
      exact (generation_error_has_shape e w)
  end.

Lemma py_get_Ok data key dflt v :
  py_get data key dflt = Ok v -> exists d, data = PDict d.
Proof. destruct data; simpl; try discriminate. eauto. Qed.

(** Only a dict gets as far as a story. *)
Lemma story_needs_dict data now els :
  story data now = Ok els -> exists d, data = PDict d.
Proof.
  intros H. apply story_Ok in H as (p1 & p2 & H1 & _ & _).
  unfold page1_elements in H1. inv_block H1.
  match goal with
  | Hg : py_get data "name" _ = Ok _ |- _ => apply py_get_Ok in Hg
  end. assumption.
Qed.

Lemma composer_needs_dict data out now w r w' :
  generate_chicken_math_pdf data out now w = (Ok r, w') ->
  exists d, data = PDict d.
Proof.
  unfold generate_chicken_math_pdf.
  destruct (story data now) as [els|e] eqn:E; [| discriminate].
  intros _. by apply story_needs_dict in E.
Qed.

(** The three ways [generate_pdf] can end. *)
Lemma generate_pdf_cases json temp_dir uuid now w :
  let resp := fst (generate_pdf json temp_dir uuid now w) in
  generation_error_shape resp \/
  (exists data missing, json = Ok data /\ missing_fields data = Ok missing /\
     missing <> [] /\
     generate_pdf json temp_dir uuid now w = (missing_response missing, w)) \/
  (exists data download, json = Ok data /\
     missing_fields data = Ok [] /\
     report_filename data = Ok download /\
     status resp = 200 /\ attachment_name resp = Some download).
Proof.
  cbv zeta. unfold generate_pdf. destruct json as [data|e];
    [| left; error_shape].
  destruct (missing_fields data) as [[|f missing]|e] eqn:Em;
    [| right; left; by exists data, (f :: missing)
     | left; error_shape].
  destruct (generate_chicken_math_pdf _ _ _ _) as [[r|e] w'];
    [| left; error_shape].
  destruct (report_filename data) as [download|e] eqn:Ed;
    cbn [mbind result_bind]; [| left; error_shape].
  unfold send_file. destruct (fs w' !! _);
    [| left; error_shape].
  right; right. by exists data, download.
Qed.

(** The two ways [generate_pdf_base64] can end. *)
Lemma generate_pdf_base64_cases json temp_dir uuid now w :
  let resp := fst (generate_pdf_base64 json temp_dir uuid now w) in
  generation_error_shape resp \/
  (exists d download, json = Ok (PDict d) /\
     report_filename (PDict d) = Ok download /\
     status resp = 200 /\
     json_field resp "filename" = Some (PStr download)).
Proof.
  cbv zeta. unfold generate_pdf_base64. destruct json as [data|e];
    [| left; error_shape].
  destruct (generate_chicken_math_pdf _ _ _ _) as [[r|e] w'] eqn:Eg;
    [| left; error_shape].
  apply composer_needs_dict in Eg as [d ->].
  destruct (fs w' !! _); [| left; error_shape].
  destruct (report_filename (PDict d)) as [download|e] eqn:Ed;
    [| left; error_shape].
  right. by exists d, download.
Qed.

Lemma shape_status resp : generation_error_shape resp -> status resp = 500.
Proof. by intros [m ->]. Qed.

(** C10, as the code has it.  For a body that is not a JSON object:
    [/generate-pdf-base64] always answers with the generation error (500,
    [{error, message}]); [/generate-pdf] does so when [request.json] raised
    or gave [None], a number or a boolean; for an array or a string it
    runs the membership test of line 59 and answers 400 with the names that
    are not members, leaving the world unchanged, or the generation error
    when every name is a member. *)
Theorem nonobject_body_responses (json : result pyval)
    (temp_dir uuid : string) (now : date) (w : world) :
  ~ json_object json ->
  generation_error_shape
    (fst (generate_pdf_base64 json temp_dir uuid now w)) /\
  (raises_or_scalar json ->
   generation_error_shape (fst (generate_pdf json temp_dir uuid now w))) /\
  (forall data missing,
     json = Ok data -> missing_fields data = Ok missing ->
     (missing <> [] ->
      generate_pdf json temp_dir uuid now w = (missing_response missing, w)) /\
     (missing = [] ->
      generation_error_shape (fst (generate_pdf json temp_dir uuid now w)))).
Proof.
  intros Hobj. split; [| split].
  - destruct (generate_pdf_base64_cases json temp_dir uuid now w)
      as [H | (d & download & -> & _)]; [exact H |].
    exfalso. apply Hobj. by exists d.
  - intros Hs. unfold generate_pdf.
    destruct json as [[| | | | | |]|e]; simpl in Hs; try done;
      unfold missing_fields, required_fields;
      cbn [missing_among py_contains mbind result_bind]; error_shape.
  - intros data missing -> Hm. split.
    + intros Hne. unfold generate_pdf. rewrite Hm.
      destruct missing; [done | reflexivity].
    + intros ->. unfold generate_pdf. rewrite Hm.
      destruct (generate_chicken_math_pdf _ _ _ _) as [[r|e] w'] eqn:Eg;
        [| error_shape].
      apply composer_needs_dict in Eg as [d ->].
      exfalso. apply Hobj. by exists d.
Qed.

(** [/generate-pdf-base64] has no validation step: whatever the body, it
    answers 200 or 500. *)
Lemma base64_status json temp_dir uuid now w :
  status (fst (generate_pdf_base64 json temp_dir uuid now w)) = 200 \/
  status (fst (generate_pdf_base64 json temp_dir uuid now w)) = 500.
Proof.
  destruct (generate_pdf_base64_cases json temp_dir uuid now w)
    as [H | (d & download & _ & _ & H & _)].
  - right. apply (shape_status _ H).
  - left. exact H.
Qed.

End Routes.

(** C10, as stated, fails: an empty JSON array is not a JSON object, and
    [/generate-pdf] answers it with the 400 that lists all eight required
    fields. *)
Lemma array_body_gets_400 :
  ~ json_object (Ok (PList [])) /\
  @generate_pdf reference_runtime (Ok (PList [])) "/tmp" "0f8fad5b"
    sample_date empty_world
  = (missing_response required_fields, empty_world) /\
  status (missing_response required_fields) = 400.
Proof.
  split; [| split; reflexivity].
  intros [d [=]].
Qed.

Lemma nonobject_body_responses_witness :
  generation_error_shape
    (fst (@generate_pdf_base64 reference_runtime (Ok PNone) "/tmp" "0f8fad5b"
            sample_date empty_world)) /\
  generation_error_shape
    (fst (@generate_pdf reference_runtime (Ok PNone) "/tmp" "0f8fad5b"
            sample_date empty_world)).
Proof.
  destruct (@nonobject_body_responses reference_runtime (Ok PNone) "/tmp"
              "0f8fad5b" sample_date empty_world) as (Hb & Hp & _).
  - intros [d [=]].
  - split; [exact Hb | apply Hp; exact I].
Defined.

(** C4. [/generate-pdf-base64] does not validate: its answer is always 200
    or 500, never the 400 of a missing field; for the body
    [{"name": "Jane Doe"}], which lacks seven required fields, it calls the
    composer and answers 200, where [/generate-pdf] answers 400 without
    calling it. *)
Theorem base64_route_skips_validation :
  (forall (rt : Runtime) json temp_dir uuid now w,
     status (fst (generate_pdf_base64 json temp_dir uuid now w)) = 200 \/
     status (fst (generate_pdf_base64 json temp_dir uuid now w)) = 500) /\
  (let run := @generate_pdf_base64 reference_runtime (Ok (PDict only_name))
                "/tmp" "0f8fad5b" sample_date empty_world in
   status (fst run) = 200 /\
   json_field (fst run) "filename"
     = Some (PStr "Chicken_Math_Report_Jane_Doe.pdf") /\
   composer_calls (snd run)
     = [(PDict only_name, "/tmp/chicken_math_0f8fad5b.pdf")]) /\
  (let run := @generate_pdf reference_runtime (Ok (PDict only_name))
                "/tmp" "0f8fad5b" sample_date empty_world in
   status (fst run) = 400 /\ composer_calls (snd run) = []).
Proof.
  split; [| split].
  - intros rt json temp_dir uuid now w. apply base64_status.
  - vm_compute. repeat split.
  - vm_compute. repeat split.
Qed.

Lemma replace_space_length s :
  String.length (replace_space s) = String.length s.
Proof. induction s as [|c s IH]; simpl; [done | by rewrite IH]. Qed.

Lemma replace_space_get s : forall i,
  String.get i (replace_space s) = underscore_space <$> String.get i s.
Proof.
  induction s as [|c s IH]; intros i; simpl; [done |].
  destruct i; [reflexivity | apply IH].
Qed.

(** ** The suggested file name *)

Section Filenames.
Context {rt : Runtime}.

Lemma report_filename_name d name :
  d !! "name" = Some (PStr name) ->
  report_filename (PDict d)
  = Ok ("Chicken_Math_Report_" +:+ replace_space name +:+ ".pdf").
Proof. unfold report_filename. simpl. by intros ->. Qed.

(** C7. For every object body whose [name] is a string, a successful
    answer (200) of [/generate-pdf] carries the attachment name
    [Chicken_Math_Report_<name'>.pdf] and a successful answer of
    [/generate-pdf-base64] carries the same text in [filename], where
    [name'] has the length of [name] and, at every position, an underscore
    where [name] has a space and the character of [name] elsewhere. *)
Theorem download_filename (d : gmap string pyval) (name : string)
    (temp_dir uuid : string) (now : date) (w : world) :
  d !! "name" = Some (PStr name) ->
  let expected := "Chicken_Math_Report_" +:+ replace_space name +:+ ".pdf" in
  (status (fst (generate_pdf (Ok (PDict d)) temp_dir uuid now w)) = 200 ->
   attachment_name (fst (generate_pdf (Ok (PDict d)) temp_dir uuid now w))
   = Some expected) /\
  (status (fst (generate_pdf_base64 (Ok (PDict d)) temp_dir uuid now w)) = 200 ->
   json_field (fst (generate_pdf_base64 (Ok (PDict d)) temp_dir uuid now w))
     "filename" = Some (PStr expected)) /\
  String.length (replace_space name) = String.length name /\
  (forall i, String.get i (replace_space name)
             = underscore_space <$> String.get i name).
Proof.
  intros Hname expected.
  pose proof (report_filename_name d name Hname) as Hrep.
  split; [| split; [| split; [apply replace_space_length | apply replace_space_get]]].
  - intros Hst.
    destruct (generate_pdf_cases (Ok (PDict d)) temp_dir uuid now w)
      as [H | [(data & missing & _ & _ & _ & H) | (data & download & [= <-] & _ & Hd & _ & H)]].
    + rewrite (shape_status _ H) in Hst. discriminate.
    + rewrite H in Hst. discriminate.
    + rewrite H. rewrite Hrep in Hd. by injection Hd as <-.
  - intros Hst.
    destruct (generate_pdf_base64_cases (Ok (PDict d)) temp_dir uuid now w)
      as [H | (d' & download & [= <-] & Hd & _ & H)].
    + rewrite (shape_status _ H) in Hst. discriminate.
    + rewrite H. rewrite Hrep in Hd. by injection Hd as <-.
Qed.

End Filenames.

Lemma download_filename_witness :
  attachment_name
    (fst (@generate_pdf reference_runtime (Ok (PDict jane)) "/tmp" "0f8fad5b"
            sample_date empty_world))
  = Some "Chicken_Math_Report_Jane_Doe.pdf" /\
  json_field
    (fst (@generate_pdf_base64 reference_runtime (Ok (PDict jane)) "/tmp"
            "0f8fad5b" sample_date empty_world)) "filename"
  = Some (PStr "Chicken_Math_Report_Jane_Doe.pdf").
Proof.
  destruct (@download_filename reference_runtime jane "Jane Doe" "/tmp"
              "0f8fad5b" sample_date empty_world eq_refl) as (Hp & Hb & _).
  split; [apply Hp | apply Hb]; vm_compute; reflexivity.
Defined.

(** ** Pages of the story, and the value returned *)

Section Pages.
Context {rt : Runtime}.




(** The only normal exit of the composer. *)
Lemma composer_Ok (data : pyval) (output_filename : string) (now : date)
    (w w' : world) (returned : string) :
  generate_chicken_math_pdf data output_filename now w = (Ok returned, w') ->
  returned = output_filename /\
  exists els,
    story data now = Ok els /\
    doc_build output_filename els add_page_number add_page_number (fs w)
    = (None, fs w') /\
    stdout w' = stdout w ++ ["PDF generated successfully: " +:+ output_filename].
Proof.
  unfold generate_chicken_math_pdf.
  destruct (story data now) as [els|e]; [| discriminate].
  destruct (doc_build _ _ _ _ _) as [[e|] fs'] eqn:Eb; [discriminate |].
  intros [= <- <-]. split; [reflexivity |]. exists els.
  split; [reflexivity | split; [exact Eb | reflexivity]].
Qed.



(** C9. When [generate_chicken_math_pdf] returns, the value returned is
    the [output_filename] it was given: the story was built, [doc.build]
    raised nothing, and the success line was printed. *)
Theorem composer_returns_location (data : pyval) (output_filename : string)
    (now : date) (w w' : world) (returned : string) :
  generate_chicken_math_pdf data output_filename now w = (Ok returned, w') ->
  returned = output_filename /\
  exists els,
    story data now = Ok els /\
    doc_build output_filename els add_page_number add_page_number (fs w)
    = (None, fs w') /\
    stdout w' = stdout w ++ ["PDF generated successfully: " +:+ output_filename].
Proof. apply composer_Ok. Qed.

End Pages.


Lemma composer_returns_location_witness :
  fst (@generate_chicken_math_pdf reference_runtime (PDict jane)
         "/tmp/report.pdf" sample_date empty_world)
  = Ok "/tmp/report.pdf".
Proof.
  destruct (@generate_chicken_math_pdf reference_runtime (PDict jane)
              "/tmp/report.pdf" sample_date empty_world)
    as [[returned|e] w'] eqn:E; [| vm_compute in E; discriminate].
  destruct (@composer_returns_location reference_runtime (PDict jane)
              "/tmp/report.pdf" sample_date empty_world w' returned E)
    as [-> _].
  reflexivity.
Defined.

(** ** Counts and amounts in the economics table *)



Section Numbers.
Context {rt : Runtime}.




End Numbers.


(** ** Defaults *)

Section Defaults.
Context {rt : Runtime}.

Lemma field_with_default (d : gmap string pyval) (key : string) (v : pyval) :
  documented_defaults !! key = Some v ->
  field (d ∪ documented_defaults) key v = field d key v.
Proof.
  intros Hk. unfold field. rewrite lookup_union.
  destruct (d !! key) as [x|]; rewrite Hk; reflexivity.
Qed.

Lemma story_with_defaults (d : gmap string pyval) (now : date) :
  story (PDict (d ∪ documented_defaults)) now = story (PDict d) now.
Proof.
  unfold story, page1_elements, page2_elements, flock_data, economic_data,
    profit_fill.
  rewrite !py_get_dict.
  rewrite !(field_with_default d "name" (PStr "Chicken Owner") eq_refl).
  rewrite !(field_with_default d "current_flock" (PInt 0) eq_refl).
  rewrite !(field_with_default d "real_flock" (PInt 0) eq_refl).
  rewrite !(field_with_default d "yearly_eggs" (PInt 0) eq_refl).
  rewrite !(field_with_default d "egg_revenue" (PInt 0) eq_refl).
  rewrite !(field_with_default d "feed_cost" (PInt 0) eq_refl).
  rewrite !(field_with_default d "net_profit" (PInt 0) eq_refl).
  rewrite !(field_with_default d "funny_quote" (PStr "No assessment provided.") eq_refl).
  rewrite !(field_with_default d "recommended_purchase" (PStr "Premium Chicken Care Package") eq_refl).
  reflexivity.
Qed.

(** C6. Composing a mapping gives the same as composing it with every
    absent field set to its documented default (0 for the six numeric
    fields, [Chicken Owner], [No assessment provided.],
    [Premium Chicken Care Package]), the present fields being kept: the same
    story, the same value returned or exception raised, the same files and
    the same output.  So a missing key alone never makes the composer
    fail. *)
Theorem absent_fields_take_defaults (d : gmap string pyval) (now : date)
    (output_filename : string) (w : world) :
  let filled := d ∪ documented_defaults in
  let run := generate_chicken_math_pdf (PDict d) output_filename now w in
  let run' := generate_chicken_math_pdf (PDict filled) output_filename now w in
  (forall key,
     filled !! key = match d !! key with
                     | Some v => Some v
                     | None => documented_defaults !! key
                     end) /\
  story (PDict d) now = story (PDict filled) now /\
  fst run = fst run' /\
  fs (snd run) = fs (snd run') /\
  stdout (snd run) = stdout (snd run').
Proof.
  cbv zeta. split; [| split].
  - intros key. rewrite lookup_union.
    destruct (d !! key); [apply union_Some_l | apply (left_id None _)].
  - by rewrite story_with_defaults.
  - unfold generate_chicken_math_pdf. rewrite story_with_defaults.
    destruct (story (PDict d) now) as [els|e]; [| done].
    simpl fs. destruct (doc_build _ _ _ _ _) as [[e|] fs']; done.
Qed.

End Defaults.

(** ** The example of the specification, run

    Jane Doe, 6 declared and 11 audited chickens, 817.00 of profit. *)

Example jane_findings :
  @flock_data reference_runtime (PDict jane)
  = Ok [ ["Category"; "Count"; "Status"];
         ["Chickens You Admit To Owning"; "6"; "✓"];
         ["Actual Chicken Count (Per Audit)"; "11"; "⚠️"];
         ["Discrepancy"; "5"; "CRITICAL"] ].
Proof. reflexivity. Qed.

Example jane_economics :
  @economic_data reference_runtime (PDict jane)
  = Ok [ ["Metric"; "Annual Amount"];
         ["Projected Egg Production"; "3,146 eggs"];
         ["Egg Revenue Value"; "$1,573.00"];
         ["Feed & Bedding Costs"; "$756.00"];
         ["Net Financial Impact"; "$817.00"] ].
Proof. reflexivity. Qed.

Example jane_fill : profit_fill (PDict jane) = Ok positive_fill.
Proof. reflexivity. Qed.

Example in_the_red_fill : profit_fill (PDict in_the_red) = Ok negative_fill.
Proof. reflexivity. Qed.

Example in_the_red_amount :
  py_format_money (field in_the_red "net_profit" (PInt 0)) = Ok "-120.00".
Proof. reflexivity. Qed.

(** Ties go to the even neighbour, on the exact binary value:
    0.125 and 0.375. *)
Example half_cent_down : format_float_2f (S754_finite false 1 (-3)) = "0.12".
Proof. reflexivity. Qed.

Example half_cent_up : format_float_2f (S754_finite false 3 (-3)) = "0.38".
Proof. reflexivity. Qed.

(** The empty mapping is composed, with every default. *)
Example empty_mapping_composed :
  fst (@generate_chicken_math_pdf reference_runtime (PDict ∅)
         "/tmp/report.pdf" sample_date empty_world)
  = Ok "/tmp/report.pdf" /\
  @economic_data reference_runtime (PDict ∅)
  = Ok [ ["Metric"; "Annual Amount"];
         ["Projected Egg Production"; "0 eggs"];
         ["Egg Revenue Value"; "$0.00"];
         ["Feed & Bedding Costs"; "$0.00"];
         ["Net Financial Impact"; "$0.00"] ].
Proof. split; vm_compute; reflexivity. Qed.

(** After the response of [/generate-pdf] is closed the temporary file is
    gone. *)
Example temporary_file_removed :
  let run := @generate_pdf reference_runtime (Ok (PDict jane)) "/tmp"
               "0f8fad5b" sample_date empty_world in
  fs (snd run) !! "/tmp/chicken_math_0f8fad5b.pdf" = Some doc_bytes /\
  fs (close_response (fst run) (snd run)) !! "/tmp/chicken_math_0f8fad5b.pdf"
  = None.
Proof. split; vm_compute; reflexivity. Qed.

(** A JSON string passes the validation when every required name occurs
    in it; the composer then fails on [data.get]. *)
Example string_body_with_all_names :
  @missing_fields (PStr all_names_text) = Ok [] /\
  status (fst (@generate_pdf reference_runtime (Ok (PStr all_names_text))
                 "/tmp" "0f8fad5b" sample_date empty_world)) = 500 /\
  @generate_pdf reference_runtime (Ok (PStr "name")) "/tmp" "0f8fad5b"
    sample_date empty_world
  = (missing_response
       [ "current_flock"; "real_flock"; "yearly_eggs"; "egg_revenue";
         "feed_cost"; "net_profit"; "funny_quote" ], empty_world).
Proof. repeat split; vm_compute; reflexivity. Qed.

(** * Further properties of the two scripts *)

(** ** The front end, run by run *)

Section Runs.
Context {rt : Runtime}.

(** What a call of the composer does to the world. *)
Lemma composer_world data out now w r w' :
  generate_chicken_math_pdf data out now w = (r, w') ->
  app_log w' = app_log w /\
  composer_calls w' = composer_calls w ++ [(data, out)] /\
  (forall e, r = Raise e -> stdout w' = stdout w) /\
  (forall e, story data now = Raise e -> r = Raise e /\ fs w' = fs w).
Proof.
  unfold generate_chicken_math_pdf.
  destruct (story data now) as [els|e0].
  - destruct (doc_build _ _ _ _ _) as [[e|] fs']; intros [= <- <-];
      (split; [done |]; split; [done |]; split; [| done]); by intros e0.
  - intros [= <- <-]. split; [done |]. split; [done |]. split; [done |].
    by intros e [= <-].
Qed.

Lemma generate_pdf_run json temp_dir uuid now w :
  pdf_run json (temp_pdf_path temp_dir uuid) now w
    (fst (generate_pdf json temp_dir uuid now w))
    (snd (generate_pdf json temp_dir uuid now w)).
Proof.
  unfold generate_pdf. destruct json as [data|e]; [| by eapply pdf_no_json].
  destruct (missing_fields data) as [[|f missing]|e] eqn:Em;
    [| by eapply pdf_missing | by eapply pdf_unvalidated].
  destruct (generate_chicken_math_pdf _ _ _ _) as [[r|e] w1] eqn:Eg;
    [| by eapply pdf_not_composed].
  destruct (report_filename data) as [download|e] eqn:Ed;
    cbn [mbind result_bind]; [| by eapply pdf_not_named].
  unfold send_file. destruct (fs w1 !! _) as [content|] eqn:Ef.
  - by eapply pdf_sent.
  - by eapply pdf_not_found.
Qed.

Lemma generate_pdf_base64_run json temp_dir uuid now w :
  base64_run json (temp_pdf_path temp_dir uuid) now w
    (fst (generate_pdf_base64 json temp_dir uuid now w))
    (snd (generate_pdf_base64 json temp_dir uuid now w)).
Proof.
  unfold generate_pdf_base64. destruct json as [data|e];
    [| by eapply b64_no_json].
  destruct (generate_chicken_math_pdf _ _ _ _) as [[r|e] w1] eqn:Eg;
    [| by eapply b64_not_composed].
  destruct (fs w1 !! _) as [pdf_data|] eqn:Ef; [| by eapply b64_not_found].
  destruct (report_filename data) as [name|e] eqn:Ed.
  - by eapply b64_sent.
  - by eapply b64_not_named.
Qed.

End Runs.

Section Serving.
Context {rt : Runtime}.

Lemma generation_error_status e w : status (fst (generation_error e w)) = 500.
Proof. reflexivity. Qed.

Lemma generation_error_message e w :
  json_field (fst (generation_error e w)) "message" = Some (PStr (exn_str e)).
Proof. reflexivity. Qed.

Lemma generation_error_log e w :
  app_log (snd (generation_error e w))
  = app_log w ++ ["Error generating PDF: " +:+ exn_str e].
Proof. reflexivity. Qed.

(** X1. A 200 answer of [/generate-pdf] is the file that the composer
    just wrote at the temporary path: it carries the bytes found there, the
    name built from [data['name']], the PDF media type, is sent as an
    attachment, and registers the temporary path for removal on close. *)
Theorem pdf_success_serves_generated_file (json : result pyval)
    (temp_dir uuid : string) (now : date) (w w' : world) (resp : response) :
  generate_pdf json temp_dir uuid now w = (resp, w') ->
  status resp = 200 ->
  let path := temp_pdf_path temp_dir uuid in
  exists data content download,
    json = Ok data /\
    missing_fields data = Ok [] /\
    generate_chicken_math_pdf data path now w = (Ok path, w') /\
    report_filename data = Ok download /\
    fs w' !! path = Some content /\
    body resp = FilePayload path content download "application/pdf" true /\
    on_close resp = Some path.
Proof.
  intros Hrun Hst path.
  pose proof (generate_pdf_run json temp_dir uuid now w) as R.
  rewrite Hrun in R. cbn [fst snd] in R. fold path in R.
  inversion R; subst; try (rewrite generation_error_status in Hst; discriminate).
  - discriminate Hst.
  - match goal with
    | Hg : generate_chicken_math_pdf _ _ _ _ = (Ok ?r, _) |- _ =>
        destruct (composer_Ok _ _ _ _ _ _ Hg) as [-> _]
    end.
    by eexists _, _, _.
Qed.



End Serving.

Lemma pdf_success_serves_generated_file_witness :
  exists content,
    body (fst (@generate_pdf reference_runtime (Ok (PDict jane)) "/tmp"
                 "0f8fad5b" sample_date busy_world))
    = FilePayload "/tmp/chicken_math_0f8fad5b.pdf" content
        "Chicken_Math_Report_Jane_Doe.pdf" "application/pdf" true /\
    fs (snd (@generate_pdf reference_runtime (Ok (PDict jane)) "/tmp"
               "0f8fad5b" sample_date busy_world))
      !! "/tmp/chicken_math_0f8fad5b.pdf" = Some content.
Proof.
  destruct (@pdf_success_serves_generated_file reference_runtime
              (Ok (PDict jane)) "/tmp" "0f8fad5b" sample_date busy_world
              _ _ (surjective_pairing _))
    as (data & content & download & [= <-] & _ & _ & Hd & Hf & Hb & _).
  - vm_compute. reflexivity.
  - exists content. split; [| exact Hf]. rewrite Hb.
    vm_compute in Hd. by injection Hd as <-.
Defined.



Section Agreement.
Context {rt : Runtime}.


(** X5. Both routes log every failure once and only failures: a 500
    answer carries in [message] the text of the exception, and the
    application log has grown by the single line
    [Error generating PDF: <that text>]; any other answer leaves the log as
    it was. *)
Theorem failures_are_logged_once (json : result pyval)
    (temp_dir uuid : string) (now : date) (w : world) :
  let outcome (run : response * world) :=
    (status (fst run) = 500 /\
     exists text,
       json_field (fst run) "message" = Some (PStr text) /\
       app_log (snd run) = app_log w ++ ["Error generating PDF: " +:+ text])
    \/ ((status (fst run) = 200 \/ status (fst run) = 400) /\
        app_log (snd run) = app_log w) in
  outcome (generate_pdf json temp_dir uuid now w) /\
  outcome (generate_pdf_base64 json temp_dir uuid now w).
Proof.
  cbv zeta.
  assert (Herr : forall e w1, app_log w1 = app_log w ->
    status (fst (generation_error e w1)) = 500 /\
    exists text,
      json_field (fst (generation_error e w1)) "message" = Some (PStr text) /\
      app_log (snd (generation_error e w1))
      = app_log w ++ ["Error generating PDF: " +:+ text]).
  { intros e w1 Hlog. split; [reflexivity |]. exists (exn_str e).
    split; [reflexivity |]. by rewrite generation_error_log, Hlog. }
  split.
  - pose proof (generate_pdf_run json temp_dir uuid now w) as R.
    destruct (generate_pdf json temp_dir uuid now w) as [resp w'].
    cbn [fst snd] in *.
    inversion R; subst;
      repeat match goal with
      | Hg : generate_chicken_math_pdf _ _ _ _ = _ |- _ =>
          apply composer_world in Hg as (Hlog & _)
      end;
      first [ left; by apply Herr
            | right; split; [by left | done]
            | right; split; [by right | done] ].
  - pose proof (generate_pdf_base64_run json temp_dir uuid now w) as R.
    destruct (generate_pdf_base64 json temp_dir uuid now w) as [resp w'].
    cbn [fst snd] in *.
    inversion R; subst;
      repeat match goal with
      | Hg : generate_chicken_math_pdf _ _ _ _ = _ |- _ =>
          apply composer_world in Hg as (Hlog & _)
      end;
      first [ left; by apply Herr
            | right; split; [by left | done]
            | right; split; [by right | done] ].
Qed.

(** X6. [/generate-pdf] calls the composer at most once, only on a body
    that passed the validation, and always with the temporary path; it
    called it exactly once whenever the answer is 200 and not at all
    whenever it is 400.  [/generate-pdf-base64] calls it exactly once on
    every body that parsed, validated or not, and never otherwise. *)
Theorem composer_called_once (json : result pyval)
    (temp_dir uuid : string) (now : date) (w : world) :
  let path := temp_pdf_path temp_dir uuid in
  let run := generate_pdf json temp_dir uuid now w in
  let run64 := generate_pdf_base64 json temp_dir uuid now w in
  (composer_calls (snd run) = composer_calls w /\
   (status (fst run) = 400 \/ status (fst run) = 500)
   \/ exists data,
        json = Ok data /\ missing_fields data = Ok [] /\
        (status (fst run) = 200 \/ status (fst run) = 500) /\
        composer_calls (snd run) = composer_calls w ++ [(data, path)]) /\
  composer_calls (snd run64)
  = composer_calls w ++
      match json with
      | Ok data => [(data, path)]
      | Raise _ => []
      end.
Proof.
  cbv zeta. split.
  - pose proof (generate_pdf_run json temp_dir uuid now w) as R.
    destruct (generate_pdf json temp_dir uuid now w) as [resp w'].
    cbn [fst snd] in *.
    inversion R; subst;
      repeat match goal with
      | Hg : generate_chicken_math_pdf _ _ _ _ = _ |- _ =>
          apply composer_world in Hg as (_ & Hcalls & _)
      end;
      first [ left; split; [done | by right]
            | left; split; [done | by left]
            | right; eexists; split; [reflexivity |];
              split; [assumption |]; split; [by right | done]
            | right; eexists; split; [reflexivity |];
              split; [assumption |]; split; [by left | done] ].
  - pose proof (generate_pdf_base64_run json temp_dir uuid now w) as R.
    destruct (generate_pdf_base64 json temp_dir uuid now w) as [resp w'].
    cbn [fst snd] in *.
    inversion R; subst;
      repeat match goal with
      | Hg : generate_chicken_math_pdf _ _ _ _ = _ |- _ =>
          apply composer_world in Hg as (_ & Hcalls & _)
      end; cbn; by rewrite ?app_nil_r.
Qed.

End Agreement.


Section Presence.
Context {rt : Runtime}.

Lemma missing_among_sublist (fields : list string) (data : pyval) :
  forall missing,
    missing_among fields data = Ok missing -> missing `sublist_of` fields.
Proof.
  induction fields as [|f fields IH]; intros missing H; cbn [missing_among] in H.
  - by injection H as <-.
  - inv_block H. destruct v; injection H as <-.
    + by apply sublist_cons, IH.
    + by apply sublist_skip, IH.
Qed.

(** X7. The list of missing fields is always a part of the required list
    in the order of that list, without repetition, whatever container the
    body is (object, array or string). *)
Theorem missing_follows_required_order (data : pyval) (missing : list string) :
  missing_fields data = Ok missing ->
  missing `sublist_of` required_fields /\ NoDup missing /\
  (length missing <= 8)%nat.
Proof.
  intros H. apply missing_among_sublist in H.
  split; [exact H |]. split.
  - eapply sublist_NoDup; [apply required_fields_NoDup | exact H].
  - apply sublist_length in H. exact H.
Qed.

(** X8. The validation looks at the presence of keys only: an object
    body that has the eight required keys, whatever their values (a null, a
    string where a number belongs), is never answered with the 400; the
    composer is called on it and the answer is 200 or 500. *)
Theorem complete_body_is_composed (d : gmap string pyval)
    (temp_dir uuid : string) (now : date) (w : world) :
  (forall f, f ∈ required_fields -> is_Some (d !! f)) ->
  let run := generate_pdf (Ok (PDict d)) temp_dir uuid now w in
  missing_fields (PDict d) = Ok [] /\
  (status (fst run) = 200 \/ status (fst run) = 500) /\
  composer_calls (snd run)
  = composer_calls w ++ [(PDict d, temp_pdf_path temp_dir uuid)].
Proof.
  intros Hall run.
  assert (Hm : missing_fields (PDict d) = Ok []).
  { unfold missing_fields. rewrite missing_among_dict. f_equal.
    destruct (filter _ required_fields) as [|f rest] eqn:Ef; [done |].
    assert (Hin : f ∈ filter (fun f => d !! f = None) required_fields)
      by (rewrite Ef; apply list_elem_of_here).
    apply list_elem_of_filter in Hin as [Hn Hf].
    destruct (Hall f Hf) as [v Hv]. congruence. }
  split; [exact Hm |]. subst run. unfold generate_pdf. rewrite Hm.
  destruct (generate_chicken_math_pdf _ _ _ _) as [[r|e] w1] eqn:Eg;
    apply composer_world in Eg as (_ & Hc & _); [| by split; [right |]].
  destruct (report_filename (PDict d)) as [download|e];
    cbn [mbind result_bind]; [| by split; [right |]].
  unfold send_file. destruct (fs w1 !! _); by split; [(left + right) |].
Qed.

End Presence.

Lemma missing_follows_required_order_witness :
  @missing_fields (PList [PStr "real_flock"; PInt 3; PStr "name"])
  = Ok [ "current_flock"; "yearly_eggs"; "egg_revenue"; "feed_cost";
         "net_profit"; "funny_quote" ] /\
  [ "current_flock"; "yearly_eggs"; "egg_revenue"; "feed_cost";
    "net_profit"; "funny_quote" ] `sublist_of` required_fields.
Proof.
  split; [reflexivity |].
  apply (@missing_follows_required_order
           (PList [PStr "real_flock"; PInt 3; PStr "name"])).
  reflexivity.
Defined.

Lemma complete_body_is_composed_witness :
  let run := @generate_pdf reference_runtime (Ok (PDict null_profit)) "/tmp"
               "0f8fad5b" sample_date empty_world in
  status (fst run) = 500 /\
  composer_calls (snd run)
  = [(PDict null_profit, "/tmp/chicken_math_0f8fad5b.pdf")].
Proof.
  intros run.
  destruct (@complete_body_is_composed reference_runtime null_profit "/tmp"
              "0f8fad5b" sample_date empty_world) as (_ & _ & Hc).
  - intros f Hf. apply list_elem_of_In in Hf. simpl in Hf.
    repeat (destruct Hf as [<- | Hf]; [vm_compute; eauto |]). done.
  - split; [vm_compute; reflexivity | exact Hc].
Defined.

Section Failures.
Context {rt : Runtime}.

(** X9. [/generate-pdf] removes the temporary file only through the close
    hook of a 200 answer.  When the body passes the validation and the
    composer writes the document but [data['name']] is not a string, the
    answer is the 500 of the [AttributeError], no hook is registered, and
    the world is the one the composer left plus the log line: whatever
    [doc.build] wrote at the temporary path stays there, also after the
    response is closed. *)
Theorem unnamed_document_is_left_behind (d : gmap string pyval) (v : pyval)
    (temp_dir uuid : string) (now : date) (w w1 : world) (returned : string) :
  (forall f, f ∈ required_fields -> is_Some (d !! f)) ->
  d !! "name" = Some v -> (forall s, v <> PStr s) ->
  generate_chicken_math_pdf (PDict d) (temp_pdf_path temp_dir uuid) now w
  = (Ok returned, w1) ->
  let run := generate_pdf (Ok (PDict d)) temp_dir uuid now w in
  status (fst run) = 500 /\
  json_field (fst run) "message" = Some (PStr (exn_str AttributeError)) /\
  on_close (fst run) = None /\
  fs (snd run) = fs w1 /\
  fs (close_response (fst run) (snd run)) = fs w1.
Proof.
  intros Hall Hname Hv Hg run.
  assert (Hm : missing_fields (PDict d) = Ok []).
  { unfold missing_fields. rewrite missing_among_dict. f_equal.
    destruct (filter _ required_fields) as [|f rest] eqn:Ef; [done |].
    assert (Hin : f ∈ filter (fun f => d !! f = None) required_fields)
      by (rewrite Ef; apply list_elem_of_here).
    apply list_elem_of_filter in Hin as [Hn Hf].
    destruct (Hall f Hf) as [x Hx]. congruence. }
  assert (Hr : report_filename (PDict d) = Raise AttributeError).
  { unfold report_filename. cbn [py_getitem]. rewrite Hname.
    destruct v; try reflexivity. by destruct (Hv s). }
  subst run. unfold generate_pdf. rewrite Hm, Hg, Hr.
  cbn [mbind result_bind]. repeat split.
Qed.

(** X10. Given anything but a mapping (a list, a string, a number, a
    null), the composer raises before [doc.build]: it writes no file and
    prints nothing. *)
Theorem composer_rejects_non_mapping (data : pyval) (output_filename : string)
    (now : date) (w : world) :
  (forall d, data <> PDict d) ->
  let run := generate_chicken_math_pdf data output_filename now w in
  (exists e, fst run = Raise e) /\
  fs (snd run) = fs w /\ stdout (snd run) = stdout w /\
  app_log (snd run) = app_log w.
Proof.
  intros Hnd run.
  destruct (story data now) as [els|e] eqn:Es.
  - apply story_needs_dict in Es as [d ->]. by destruct (Hnd d).
  - subst run. unfold generate_chicken_math_pdf. rewrite Es. eauto.
Qed.

Lemma py_sub_numbers a b v : py_sub a b = Ok v -> is_number a /\ is_number b.
Proof.
  destruct a as [|[]| | | | |], b as [|[]| | | | |]; simpl; try done.
Qed.

Lemma py_format_comma_number v s : py_format_comma v = Ok s -> is_number v.
Proof. destruct v; simpl; done. Qed.

Lemma py_format_money_number v s : py_format_money v = Ok s -> is_number v.
Proof. destruct v; simpl; done. Qed.

Lemma py_ge_zero_number v b : py_ge_zero v = Ok b -> is_number v.
Proof. destruct v; simpl; done. Qed.

(** What a built story says about the six numeric fields. *)
Lemma story_numbers (d : gmap string pyval) (now : date) (els : list flowable) :
  story (PDict d) now = Ok els ->
  is_number (field d "current_flock" (PInt 0)) /\
  is_number (field d "real_flock" (PInt 0)) /\
  is_number (field d "yearly_eggs" (PInt 0)) /\
  is_number (field d "egg_revenue" (PInt 0)) /\
  is_number (field d "feed_cost" (PInt 0)) /\
  is_number (field d "net_profit" (PInt 0)).
Proof.
  intros H.
  apply story_tables in H as (flock & economic & fill & Hf & He & _ & _).
  unfold flock_data in Hf. unfold economic_data in He.
  inv_block Hf. inv_block He.
  repeat match goal with
  | H : py_get (PDict _) _ _ = Ok _ |- _ => rewrite py_get_dict in H
  end.
  repeat match goal with
  | H : Ok _ = Ok _ |- _ => injection H as <-
  end.
  repeat match goal with
  | H : py_sub _ _ = Ok _ |- _ => apply py_sub_numbers in H as [? ?]
  | H : py_format_comma _ = Ok _ |- _ => apply py_format_comma_number in H
  | H : py_format_money _ = Ok _ |- _ => apply py_format_money_number in H
  end.
  repeat split; assumption.
Qed.

(** X11. A story is built only from numbers: whenever it is built, the two
    flock counts, the egg count and the three amounts (each 0 when its key
    is absent) are an [int], a [bool] or a [float]. *)
Theorem built_story_has_numbers (d : gmap string pyval) (now : date)
    (els : list flowable) :
  story (PDict d) now = Ok els ->
  is_number (field d "current_flock" (PInt 0)) /\
  is_number (field d "real_flock" (PInt 0)) /\
  is_number (field d "yearly_eggs" (PInt 0)) /\
  is_number (field d "egg_revenue" (PInt 0)) /\
  is_number (field d "feed_cost" (PInt 0)) /\
  is_number (field d "net_profit" (PInt 0)).
Proof. apply story_numbers. Qed.

(** X12. The default is for an absent key only.  When one of the six
    numeric keys is present with a value that is not a number (a JSON null,
    a string, a list, an object), the composer raises before [doc.build]:
    no file is written and nothing is printed. *)
Theorem non_number_is_not_defaulted (d : gmap string pyval) (key : string)
    (v : pyval) (output_filename : string) (now : date) (w : world) :
  key ∈ [ "current_flock"; "real_flock"; "yearly_eggs"; "egg_revenue";
          "feed_cost"; "net_profit" ] ->
  d !! key = Some v -> ~ is_number v ->
  let run := generate_chicken_math_pdf (PDict d) output_filename now w in
  (exists e, fst run = Raise e) /\
  fs (snd run) = fs w /\ stdout (snd run) = stdout w.
Proof.
  intros Hkey Hv Hn run.
  destruct (story (PDict d) now) as [els|e] eqn:Es.
  - exfalso. apply story_numbers in Es as (H1 & H2 & H3 & H4 & H5 & H6).
    apply list_elem_of_In in Hkey. simpl in Hkey. unfold field in *.
    repeat (destruct Hkey as [<- | Hkey]; [rewrite Hv in *; by apply Hn |]).
    done.
  - subst run. unfold generate_chicken_math_pdf. rewrite Es. eauto.
Qed.

End Failures.

Lemma unnamed_document_is_left_behind_witness :
  let run := @generate_pdf reference_runtime (Ok (PDict numbered)) "/tmp"
               "0f8fad5b" sample_date empty_world in
  status (fst run) = 500 /\
  fs (close_response (fst run) (snd run)) !! "/tmp/chicken_math_0f8fad5b.pdf"
  = Some doc_bytes.
Proof.
  intros run.
  destruct (@generate_chicken_math_pdf reference_runtime (PDict numbered)
              (temp_pdf_path "/tmp" "0f8fad5b") sample_date empty_world)
    as [[returned|e] w1] eqn:E; [| vm_compute in E; discriminate].
  destruct (@unnamed_document_is_left_behind reference_runtime numbered
              (PInt 5) "/tmp" "0f8fad5b" sample_date empty_world w1 returned)
    as (Hst & _ & _ & _ & Hfs).
  - intros f Hf. apply list_elem_of_In in Hf. simpl in Hf.
    repeat (destruct Hf as [<- | Hf]; [vm_compute; eauto |]). done.
  - reflexivity.
  - discriminate.
  - exact E.
  - split; [exact Hst |]. fold run in Hfs. rewrite Hfs.
    vm_compute in E. injection E as _ <-. vm_compute. reflexivity.
Defined.

Lemma composer_rejects_non_mapping_witness :
  let run := @generate_chicken_math_pdf reference_runtime
               (PList [PStr "name"]) "/tmp/report.pdf" sample_date
               busy_world in
  fst run = Raise AttributeError /\ fs (snd run) = fs busy_world.
Proof.
  intros run.
  destruct (@composer_rejects_non_mapping reference_runtime
              (PList [PStr "name"]) "/tmp/report.pdf" sample_date busy_world)
    as (_ & Hfs & _).
  - discriminate.
  - split; [vm_compute; reflexivity | exact Hfs].
Defined.

Lemma built_story_has_numbers_witness :
  is_number (field jane "net_profit" (PInt 0)) /\
  is_number (field jane "yearly_eggs" (PInt 0)).
Proof.
  destruct (@story reference_runtime (PDict jane) sample_date) as [els|e] eqn:E;
    [| vm_compute in E; discriminate].
  destruct (@built_story_has_numbers reference_runtime jane sample_date els E)
    as (_ & _ & He & _ & _ & Hp).
  by split.
Defined.

Lemma non_number_is_not_defaulted_witness :
  let run := @generate_chicken_math_pdf reference_runtime (PDict null_profit)
               "/tmp/report.pdf" sample_date busy_world in
  fst run = Raise TypeError /\ fs (snd run) = fs busy_world.
Proof.
  intros run.
  destruct (@non_number_is_not_defaulted reference_runtime null_profit
              "net_profit" PNone "/tmp/report.pdf" sample_date busy_world)
    as (_ & Hfs & _).
  - apply list_elem_of_In. simpl. tauto.
  - reflexivity.
  - intros [].
  - split; [vm_compute; reflexivity | exact Hfs].
Defined.

(** ** Paths and names *)

Lemma append_inj_l (s a b : string) : s +:+ a = s +:+ b -> a = b.
Proof. induction s as [|c s IH]; simpl; [done |]. intros [= H]. auto. Qed.

Lemma append_length (a b : string) :
  String.length (a +:+ b) = (String.length a + String.length b)%nat.
Proof. induction a as [|c a IH]; simpl; [done | by rewrite IH]. Qed.

Lemma append_inj_r (t : string) : forall a b : string,
  a +:+ t = b +:+ t -> a = b.
Proof.
  induction a as [|c a IH]; intros [|c' b] H.
  - done.
  - apply (f_equal String.length) in H.
    rewrite !append_length in H. simpl in H. lia.
  - apply (f_equal String.length) in H.
    rewrite !append_length in H. simpl in H. lia.
  - change (String c (a +:+ t) = String c' (b +:+ t)) in H.
    injection H as -> H. f_equal. by apply IH.
Qed.

Lemma path_join_inj (dir a b : string) :
  path_join dir a = path_join dir b -> a = b.
Proof.
  unfold path_join. destruct (String.length dir); [done |].
  destruct (String.eqb _ "/"); intros H.
  - by apply append_inj_l in H.
  - apply append_inj_l in H. by apply (append_inj_l "/") in H.
Qed.

(** X13. Requests that drew different identifiers work on different
    temporary files: in one temporary directory, the path is an injective
    function of the identifier. *)
Theorem temp_paths_differ (temp_dir uuid1 uuid2 : string) :
  uuid1 <> uuid2 ->
  temp_pdf_path temp_dir uuid1 <> temp_pdf_path temp_dir uuid2.
Proof.
  intros Hne H. apply Hne. unfold temp_pdf_path in H.
  apply path_join_inj, append_inj_l in H. by apply append_inj_r in H.
Qed.

Lemma temp_paths_differ_witness :
  temp_pdf_path "/tmp" "0f8fad5b" <> temp_pdf_path "/tmp" "7c9e6679".
Proof. apply temp_paths_differ. discriminate. Defined.

Lemma has_space_app (a b : string) :
  has_space (a +:+ b) = has_space a || has_space b.
Proof. unfold has_space. by rewrite chars_app, existsb_app. Qed.

Lemma replace_space_no_space (s : string) : has_space (replace_space s) = false.
Proof.
  induction s as [|c s IH]; [done |].
  change (has_space (replace_space (String c s)))
    with (Ascii.eqb " " (if Ascii.eqb c " " then "_"%char else c)
          || has_space (replace_space s)).
  rewrite IH, orb_false_r.
  destruct (Ascii.eqb_spec c " ") as [->|Hc]; [done |].
  destruct (Ascii.eqb_spec " "%char c) as [<-|]; done.
Qed.

(** X14. Whatever the request, a file name suggested by either route has no
    space in it. *)
Theorem suggested_name_has_no_space (data : pyval) (name : string) :
  report_filename data = Ok name -> has_space name = false.
Proof.
  unfold report_filename. intros H. inv_block H. injection H as <-.
  destruct v; try discriminate. injection Hv0 as <-.
  rewrite !has_space_app, replace_space_no_space. reflexivity.
Qed.

Lemma suggested_name_has_no_space_witness :
  has_space "Chicken_Math_Report_Jane_Doe.pdf" = false.
Proof. apply (suggested_name_has_no_space (PDict jane)). reflexivity. Defined.

(** ** Signs, counts and shapes *)

Lemma binary_round_aux_sign prec emax sx mx ex lx :
  match binary_round_aux prec emax sx mx ex lx with
  | S754_zero s | S754_infinity s | S754_finite s _ _ => s = sx
  | S754_nan => True
  end.
Proof.
  unfold binary_round_aux.
  destruct (shr_fexp prec emax mx ex lx) as [mrs' e'].
  destruct (shr_fexp prec emax _ e' loc_Exact) as [mrs'' e''].
  destruct (shr_m mrs''); [done | | done].
  destruct (e'' <=? emax - prec); done.
Qed.

(** [float(z)] has the sign of [z]. *)
Lemma float_of_int_sign z f :
  float_of_int z = Ok f ->
  (exists m e, f = S754_finite (z <? 0) m e) \/ f = S754_zero (z <? 0).
Proof.
  unfold float_of_int, binary_normalize, binary_round.
  pose proof (binary_normalize_not_nan prec64 emax64 z 0 false) as Hn.
  unfold binary_normalize, binary_round in Hn.
  destruct z as [|p|p]; [intros [= <-]; by right | |];
    destruct (shl_align _ _ _) as [mz ez];
    match goal with
    | |- context [binary_round_aux ?a ?b ?s ?m ?e ?l] =>
        pose proof (binary_round_aux_sign a b s m e l) as Hs;
        destruct (binary_round_aux a b s m e l)
    end; intros [= <-]; subst; try done; eauto.
Qed.

Lemma grouped_head (g : list ascii) :
  grouped g -> exists c rest, g = c :: rest /\ digit c.
Proof.
  induction 1 as [ds Hd Hlen | g ds _ (c & rest & -> & Hc) _ _].
  - destruct Hd as [|c ds Hc _]; [simpl in Hlen; lia | eauto].
  - exists c, (rest ++ ","%char :: ds). by split.
Qed.

Lemma fixed2_of_cents_minus (neg : bool) (cents : Z) :
  starts_with_minus (fixed2_of_cents neg cents) = neg.
Proof.
  unfold fixed2_of_cents. destruct neg; [reflexivity |].
  destruct (group_thousands_grouped (digits_of_N (Z.to_N (cents / 100))))
    as (g & -> & Hg); [apply digits_of_N_nonempty | apply digits_of_N_digits |].
  apply grouped_head in Hg as (c & rest & -> & Hc).
  change (Ascii.eqb c "-" = false).
  destruct (Ascii.eqb_spec c "-"%char) as [-> |]; [done | done].
Qed.

Section Signs.
Context {rt : Runtime}.

Lemma py_format_money_int_minus (z : Z) (s : string) :
  py_format_money (PInt z) = Ok s -> starts_with_minus s = (z <? 0).
Proof.
  simpl. intros H. apply bind_Ok in H as (f & Hf & [= <-]).
  apply float_of_int_sign in Hf as [(m & e & ->) | ->];
    apply fixed2_of_cents_minus.
Qed.

(** X15. For an integer [net_profit], the colour and the sign tell the
    same story: whenever the story is built, the last economics row has the
    negative fill exactly when the amount shown in it starts with a minus
    sign, which is exactly when [net_profit < 0]. *)
Theorem red_row_iff_minus_sign (d : gmap string pyval) (now : date)
    (els : list flowable) (profit : Z) :
  field d "net_profit" (PInt 0) = PInt profit ->
  story (PDict d) now = Ok els ->
  exists t amount,
    economics_table els = Some t /\
    cell (fst t) 4 1 = Some ("$" +:+ amount) /\
    (starts_with_minus amount = true <-> profit < 0) /\
    (last_row_fill t 0 = Some negative_fill <-> profit < 0) /\
    (last_row_fill t 0 = Some positive_fill <-> 0 <= profit).
Proof.
  intros Hp Hstory.
  apply story_tables in Hstory as (flock & economic & fill & _ & He & Hfill & Ht).
  destruct (economic_data_dims _ _ He) as [Hr Hc].
  unfold profit_fill in Hfill. rewrite py_get_dict, Hp in Hfill.
  cbn [py_ge_zero as_int default mbind result_bind] in Hfill.
  injection Hfill as <-.
  unfold economic_data in He. inv_block He. injection He as <-.
  repeat match goal with
  | H : py_get (PDict _) _ _ = Ok _ |- _ => rewrite py_get_dict in H
  end.
  repeat match goal with
  | H : Ok _ = Ok _ |- _ => injection H as <-
  end.
  rewrite Hp in *.
  match goal with
  | H : py_format_money (PInt profit) = Ok ?s |- _ =>
      apply py_format_money_int_minus in H as Hminus;
      eexists (_, economic_style
                    (if 0 <=? profit then positive_fill else negative_fill)), s
  end.
  unfold economics_table. rewrite Ht. cbn [lookup list_lookup fst snd].
  split; [reflexivity |]. split; [reflexivity |].
  rewrite Hminus, (economic_last_row_fill _ _ 0 Hr Hc) by lia.
  destruct (Z.leb_spec 0 profit) as [Hle|Hlt], (Z.ltb_spec profit 0);
    try lia; repeat split; try done; try lia; intros [=].
Qed.

End Signs.

Lemma red_row_iff_minus_sign_witness :
  exists els t,
    @story reference_runtime (PDict in_the_red) sample_date = Ok els /\
    economics_table els = Some t /\
    cell (fst t) 4 1 = Some "$-120.00" /\
    last_row_fill t 0 = Some negative_fill.
Proof.
  destruct (@story reference_runtime (PDict in_the_red) sample_date)
    as [els|e] eqn:E; [| vm_compute in E; discriminate].
  destruct (@red_row_iff_minus_sign reference_runtime in_the_red sample_date
              els (-120) eq_refl E)
    as (t & amount & Ht & Hc & _ & Hred & _).
  exists els, t. split; [reflexivity |]. split; [exact Ht |].
  split; [| apply Hred; lia].
  vm_compute in E. injection E as <-.
  vm_compute in Ht. injection Ht as <-. reflexivity.
Defined.

(** For a float the two can part: [-0.0 >= 0] holds, so the row is green
    over [$-0.00]; a loss of a tenth of a cent is red over [$-0.00]. *)
Example minus_zero_is_green :
  profit_fill (PDict minus_zero) = Ok positive_fill /\
  py_format_money (field minus_zero "net_profit" (PInt 0)) = Ok "-0.00".
Proof. split; reflexivity. Qed.

Example tiny_loss_is_red :
  profit_fill (PDict tiny_loss) = Ok negative_fill /\
  py_format_money (field tiny_loss "net_profit" (PInt 0)) = Ok "-0.00".
Proof. split; reflexivity. Qed.

Section Tables.
Context {rt : Runtime}.

(** X16. For integer flock counts the findings table is fully determined:
    whenever the story is built it is the header row, the declared count,
    the audited count and their difference, each as a decimal numeral with
    its fixed label and status. *)
Theorem findings_table_rows (d : gmap string pyval) (now : date)
    (els : list flowable) (real current : Z) :
  field d "real_flock" (PInt 0) = PInt real ->
  field d "current_flock" (PInt 0) = PInt current ->
  story (PDict d) now = Ok els ->
  findings_table els
  = Some ([ ["Category"; "Count"; "Status"];
            ["Chickens You Admit To Owning"; decimal current; "✓"];
            ["Actual Chicken Count (Per Audit)"; decimal real; "⚠️"];
            ["Discrepancy"; decimal (real - current); "CRITICAL"] ],
          flock_style).
Proof.
  intros Hreal Hcur Hstory.
  apply story_tables in Hstory as (flock & economic & fill & Hf & _ & _ & Ht).
  unfold findings_table. rewrite Ht. cbn [lookup list_lookup]. do 2 f_equal.
  unfold flock_data in Hf. inv_block Hf. injection Hf as <-.
  repeat match goal with
  | H : py_get (PDict _) _ _ = Ok _ |- _ => rewrite py_get_dict in H
  end.
  repeat match goal with
  | H : Ok _ = Ok _ |- _ => injection H as <-
  end.
  rewrite Hreal, Hcur in *.
  match goal with
  | Hs : py_sub _ _ = Ok _ |- _ =>
      rewrite (py_sub_int (PInt real) (PInt current) real current eq_refl eq_refl) in Hs;
        injection Hs as <-
  end.
  repeat match goal with
  | Hs : py_str (PInt _) = Ok _ |- _ => apply int_str_Ok in Hs as ->
  end.
  reflexivity.
Qed.

Lemma flock_data_shape data rows :
  flock_data data = Ok rows -> length <$> rows = [3; 3; 3; 3]%nat.
Proof. unfold flock_data. intros H. inv_block H. by injection H as <-. Qed.

Lemma economic_data_shape data rows :
  economic_data data = Ok rows -> length <$> rows = [2; 2; 2; 2; 2]%nat.
Proof. unfold economic_data. intros H. inv_block H. by injection H as <-. Qed.

(** X17. The data never changes the layout: whenever the story is built
    it has 37 flowables, of which three are tables, of 4 x 3, 5 x 2 and
    4 x 2 cells; every row of a table has as many cells as the table has
    column widths. *)
Theorem layout_is_fixed (data : pyval) (now : date) (els : list flowable) :
  story data now = Ok els ->
  length els = 37%nat /\
  omap table_shape els
  = [ ([3; 3; 3; 3], 3); ([2; 2; 2; 2; 2], 2); ([2; 2; 2; 2], 2) ]%nat /\
  Forall rectangular (omap table_shape els).
Proof.
  intros H. apply story_Ok in H as (p1 & p2 & H1 & H2 & ->).
  assert (Hp1 : length p1 = 18%nat /\
                omap table_shape p1
                = [ ([3; 3; 3; 3], 3); ([2; 2; 2; 2; 2], 2) ]%nat).
  { unfold page1_elements in H1. inv_block H1. injection H1 as <-.
    repeat match goal with
    | Hp : paragraph _ _ = Ok _ |- _ => apply paragraph_Ok in Hp as ->
    end.
    repeat match goal with
    | Hf : flock_data _ = Ok _ |- _ => apply flock_data_shape in Hf
    | He : economic_data _ = Ok _ |- _ => apply economic_data_shape in He
    end.
    split; [reflexivity |]. cbn [omap list_omap table_shape].
    by repeat match goal with Hs : length <$> _ = _ |- _ => rewrite Hs; clear Hs end. }
  assert (Hp2 : length p2 = 18%nat /\
                omap table_shape p2 = [ ([2; 2; 2; 2], 2) ]%nat).
  { unfold page2_elements in H2. inv_block H2. injection H2 as <-.
    match goal with
    | Hf : fact_paragraphs _ = Ok _ |- _ => apply fact_paragraphs_Ok in Hf as ->
    end.
    repeat match goal with
    | Hp : paragraph _ _ = Ok _ |- _ => apply paragraph_Ok in Hp as ->
    end.
    split; reflexivity. }
  destruct Hp1 as [Hl1 Hs1], Hp2 as [Hl2 Hs2].
  assert (Hshape : omap table_shape (p1 ++ [PageBreak] ++ p2)
            = [ ([3; 3; 3; 3], 3); ([2; 2; 2; 2; 2], 2); ([2; 2; 2; 2], 2) ]%nat).
  { rewrite !omap_app, Hs1, Hs2. reflexivity. }
  split; [rewrite !length_app, Hl1, Hl2; reflexivity |].
  split; [exact Hshape |]. rewrite Hshape.
  repeat constructor.
Qed.

(** X18. The date in the page header is written the way the audit date of
    page 1 is: for a story built and a page drawn at the same clock, the
    seventh flowable is the [Audit Date] paragraph with text [D], the
    canvas callback draws [Report Date: D] and the footer
    [Page <n> | CONFIDENTIAL ...] with the decimal numeral of the page
    number, between one [saveState] and one [restoreState]. *)
Theorem page_decoration_matches_story (data : pyval) (now : date)
    (els : list flowable) (page_num : Z) (ops : list canvas_op) :
  story data now = Ok els ->
  add_page_number now page_num = Ok ops ->
  let D := strftime_long now in
  els !! 6%nat = Some (Paragraph (PStr ("<b>Audit Date:</b> " +:+ D)) body_style) /\
  head ops = Some saveState /\ last ops = Some restoreState /\
  length (List.filter (fun op => match op with
                                 | saveState | restoreState => true
                                 | _ => false
                                 end) ops) = 2%nat /\
  drawString (fst letter - 3 * inch) (snd letter - inch / 2)
    ("Report Date: " +:+ D) ∈ ops /\
  drawCentredString (fst letter / 2) (inch / 2)
    ("Page " +:+ decimal page_num
       +:+ " | CONFIDENTIAL - For Chicken Owner Use Only") ∈ ops.
Proof.
  intros Hs Ha D.
  apply story_Ok in Hs as (p1 & p2 & H1 & _ & ->).
  unfold page1_elements in H1. inv_block H1. injection H1 as <-.
  repeat match goal with
  | Hp : paragraph _ _ = Ok _ |- _ => apply paragraph_Ok in Hp as ->
  end.
  unfold add_page_number in Ha. inv_block Ha. injection Ha as <-.
  match goal with
  | Hn : int_str page_num = Ok _ |- _ => apply int_str_Ok in Hn as ->
  end.
  split; [reflexivity |]. split; [reflexivity |]. split; [reflexivity |].
  split; [reflexivity |].
  split; apply list_elem_of_In; simpl; tauto.
Qed.

End Tables.

(** ** Whole amounts

    An integer below [2^53] is a binary64 number, so [float(z)] is exact
    and [%.2f] prints it with [.00]. *)

Lemma digits2_pos_bound (m : positive) : forall k : Z,
  0 <= k -> Z.pos m < 2 ^ k -> Z.pos (digits2_pos m) <= k.
Proof.
  induction m as [m IH|m IH|]; intros k Hk Hm; simpl.
  - assert (k <> 0) by (intros ->; simpl in Hm; lia).
    replace k with (Z.succ (k - 1)) in Hm by lia.
    rewrite Z.pow_succ_r in Hm by lia.
    specialize (IH (k - 1) ltac:(lia) ltac:(lia)). lia.
  - assert (k <> 0) by (intros ->; simpl in Hm; lia).
    replace k with (Z.succ (k - 1)) in Hm by lia.
    rewrite Z.pow_succ_r in Hm by lia.
    specialize (IH (k - 1) ltac:(lia) ltac:(lia)). lia.
  - assert (k <> 0) by (intros ->; simpl in Hm; lia). lia.
Qed.

Lemma iter_xO_value (m p : positive) :
  Z.pos (Pos.iter xO m p) = Z.pos m * 2 ^ Z.pos p.
Proof.
  induction p as [|p IH] using Pos.peano_ind.
  - simpl. lia.
  - rewrite Pos.iter_succ, Pos2Z.inj_succ, Z.pow_succ_r by lia.
    rewrite Pos2Z.inj_xO, IH. lia.
Qed.

Lemma iter_xO_digits (m p : positive) :
  digits2_pos (Pos.iter xO m p) = (digits2_pos m + p)%positive.
Proof.
  induction p as [|p IH] using Pos.peano_ind.
  - simpl. lia.
  - rewrite Pos.iter_succ. simpl. rewrite IH. lia.
Qed.

(** A mantissa of 53 bits with an exponent in range is kept as it is. *)
Lemma binary_round_aux_exact (sx : bool) (mz : positive) (ez : Z) :
  Z.pos (digits2_pos mz) = 53 -> -1074 <= ez <= 971 ->
  binary_round_aux prec64 emax64 sx (Z.pos mz) ez loc_Exact
  = S754_finite sx mz ez.
Proof.
  intros Hd He.
  assert (Hshr : forall e,
    e = ez ->
    shr_fexp prec64 emax64 (Z.pos mz) e loc_Exact
    = ({| shr_m := Z.pos mz; shr_r := false; shr_s := false |}, e)).
  { intros e ->. unfold shr_fexp, fexp, emin, prec64, emax64.
    cbn [Zdigits2 shr_record_of_loc]. rewrite Hd.
    replace (Z.max (53 + ez - 53) (3 - 1024 - 53) - ez) with 0 by lia.
    reflexivity. }
  unfold binary_round_aux. rewrite (Hshr ez eq_refl).
  cbn [shr_m loc_of_shr_record round_nearest_even].
  rewrite (Hshr ez eq_refl). cbn [shr_m].
  unfold prec64, emax64.
  destruct (Z.leb_spec ez (1024 - 53)); [reflexivity | lia].
Qed.

Lemma float_of_int_exact (z : Z) :
  z <> 0 -> Z.abs z < 2 ^ 53 ->
  exists m e,
    float_of_int z = Ok (S754_finite (z <? 0) m e) /\
    -52 <= e <= 0 /\ Z.pos m = Z.abs z * 2 ^ (- e).
Proof.
  intros Hz Hb.
  assert (Hpos : forall (sx : bool) (p : positive),
    Z.pos p < 2 ^ 53 ->
    exists m e,
      binary_round prec64 emax64 sx p 0 = S754_finite sx m e /\
      -52 <= e <= 0 /\ Z.pos m = Z.pos p * 2 ^ (- e)).
  { intros sx p Hp.
    pose proof (digits2_pos_bound p 53 ltac:(lia) Hp) as Hd.
    assert (0 < Z.pos (digits2_pos p)) by lia.
    unfold binary_round, shl_align, fexp, emin, prec64, emax64.
    replace (Z.max (Z.pos (digits2_pos p) + 0 - 53) (3 - 1024 - 53) - 0)
      with (Z.pos (digits2_pos p) - 53) by lia.
    replace (Z.max (Z.pos (digits2_pos p) + 0 - 53) (3 - 1024 - 53))
      with (Z.pos (digits2_pos p) - 53) by lia.
    destruct (Z.pos (digits2_pos p) - 53) as [|q|q] eqn:Eq; [| lia |].
    - exists p, 0. split; [| split; [lia | simpl; lia]].
      apply (binary_round_aux_exact sx p 0); lia.
    - exists (Pos.iter xO p q), (Z.neg q).
      split; [| split; [lia | rewrite iter_xO_value; reflexivity]].
      apply (binary_round_aux_exact sx (Pos.iter xO p q) (Z.neg q)); [| lia].
      rewrite iter_xO_digits, Pos2Z.inj_add. lia. }
  unfold float_of_int, binary_normalize.
  destruct z as [|p|p]; [done | |].
  - destruct (Hpos false p Hb) as (m & e & -> & He & Hm). by exists m, e.
  - destruct (Hpos true p Hb) as (m & e & -> & He & Hm). by exists m, e.
Qed.

Lemma cents_of_exact (m : positive) (e z : Z) :
  e <= 0 -> Z.pos m = z * 2 ^ (- e) -> cents_of_finite m e = z * 100.
Proof.
  intros He Hm. unfold cents_of_finite.
  destruct (Z.leb_spec 0 e) as [H0|H0].
  - assert (e = 0) as -> by lia. simpl in Hm. simpl. lia.
  - unfold round_half_even_div.
    assert (Hp : 0 < 2 ^ (- e)) by (apply Z.pow_pos_nonneg; lia).
    rewrite Hm.
    replace (z * 2 ^ (- e) * 100) with (z * 100 * 2 ^ (- e)) by lia.
    rewrite Z.div_mul, Z.mod_mul by lia.
    destruct (Z.compare_spec (2 * 0) (2 ^ (- e))); [lia | reflexivity | lia].
Qed.

Section WholeAmounts.
Context {rt : Runtime}.

(** X19. A whole amount is shown exactly: for every integer [z] with
    [|z| < 2^53], [f"{z:,.2f}"] is the sign, the comma-grouped decimal
    digits of [|z|], and [.00]. *)
Theorem whole_amount_is_exact (z : Z) :
  Z.abs z < 2 ^ 53 ->
  py_format_money (PInt z)
  = Ok (sign_text (z <? 0) +:+ group_thousands (digits_of_N (Z.abs_N z))
          +:+ ".00").
Proof.
  intros Hb.
  change (py_format_money (PInt z))
    with (f ← float_of_int z; Ok (format_float_2f f)).
  destruct (Z.eq_dec z 0) as [-> | Hz]; [reflexivity |].
  destruct (float_of_int_exact z Hz Hb) as (m & e & -> & He & Hm).
  cbn [mbind result_bind format_float_2f]. f_equal.
  rewrite (cents_of_exact m e (Z.abs z)) by lia.
  unfold fixed2_of_cents.
  rewrite Z.div_mul, Z.mod_mul by lia.
  replace (Z.to_N (Z.abs z)) with (Z.abs_N z) by (destruct z; reflexivity).
  reflexivity.
Qed.

End WholeAmounts.

Lemma whole_amount_is_exact_witness :
  py_format_money (PInt (-9007199254740991))
  = Ok "-9,007,199,254,740,991.00".
Proof.
  rewrite (whole_amount_is_exact (-9007199254740991)); [reflexivity |].
  vm_compute. reflexivity.
Defined.

(** Above [2^53] the conversion rounds: [2^53 + 1] is shown as [2^53]. *)
Example large_amount_is_rounded :
  py_format_money (PInt 9007199254740993) = Ok "9,007,199,254,740,992.00".
Proof. vm_compute. reflexivity. Qed.

(** ** The nearest cent *)

Lemma round_half_even_div_near (n d : Z) :
  0 <= n -> 0 < d ->
  let c := round_half_even_div n d in
  Z.abs (2 * n - 2 * c * d) <= d /\
  (Z.abs (2 * n - 2 * c * d) = d -> Z.even c = true).
Proof.
  intros Hn Hd. unfold round_half_even_div.
  pose proof (Z.div_mod n d ltac:(lia)) as Hdiv.
  pose proof (Z.mod_pos_bound n d Hd) as Hr.
  set (q := n / d) in *. set (r := n mod d) in *.
  destruct (Z.compare_spec (2 * r) d) as [Heq|Hlt|Hgt]; cbv zeta.
  - destruct (Z.even q) eqn:Ev.
    + split; [nia | done].
    + split; [nia |]. intros _. rewrite Z.even_add. rewrite Ev. reflexivity.
  - split; [nia | nia].
  - split; [nia | nia].
Qed.

(** X20. An amount is shown to the nearest cent of its exact binary value:
    for a finite float [m * 2^e] the text is printed from a number of cents
    [c] with [|100 * m * 2^e - c| <= 1/2], and [c] is even when the value
    lies exactly between two cents. *)
Theorem amount_is_nearest_cent (s : bool) (m : positive) (e : Z) :
  let c := cents_of_finite m e in
  format_float_2f (S754_finite s m e) = fixed2_of_cents s c /\
  0 <= c /\
  (0 <= e -> c = 100 * Z.pos m * 2 ^ e) /\
  (e < 0 ->
   Z.abs (2 * (100 * Z.pos m) - 2 * c * 2 ^ (- e)) <= 2 ^ (- e) /\
   (Z.abs (2 * (100 * Z.pos m) - 2 * c * 2 ^ (- e)) = 2 ^ (- e) ->
    Z.even c = true)).
Proof.
  cbv zeta. split; [reflexivity |]. unfold cents_of_finite.
  destruct (Z.leb_spec 0 e) as [H0|H0].
  - split; [| split; [lia | lia]].
    assert (0 < 2 ^ e) by (apply Z.pow_pos_nonneg; lia). nia.
  - assert (Hp : 0 < 2 ^ (- e)) by (apply Z.pow_pos_nonneg; lia).
    pose proof (round_half_even_div_near (Z.pos m * 100) (2 ^ (- e))
                  ltac:(lia) Hp) as [Hnear Heven].
    cbv zeta in Hnear, Heven.
    replace (2 * (100 * Z.pos m)) with (2 * (Z.pos m * 100)) by lia.
    split; [| split; [lia | intros _; split; assumption]].
    unfold round_half_even_div. cbv zeta.
    pose proof (Z.div_pos (Z.pos m * 100) (2 ^ (- e)) ltac:(lia) Hp).
    clear Hnear Heven.
    destruct (2 * ((Z.pos m * 100) mod 2 ^ (- e)) ?= 2 ^ (- e));
      [destruct (Z.even ((Z.pos m * 100) / 2 ^ (- e))) | |]; lia.
Qed.

Lemma amount_is_nearest_cent_witness :
  format_float_2f (S754_finite false 1 (-3)) = "0.12" /\
  Z.even (cents_of_finite 1 (-3)) = true.
Proof.
  destruct (amount_is_nearest_cent false 1 (-3)) as (Hf & _ & _ & Hneg).
  destruct (Hneg ltac:(lia)) as [_ Heven].
  split; [rewrite Hf; reflexivity | apply Heven; reflexivity].
Defined.

Lemma findings_table_rows_witness :
  exists els,
    @story reference_runtime (PDict grumpy) sample_date = Ok els /\
    findings_table els
    = Some ([ ["Category"; "Count"; "Status"];
              ["Chickens You Admit To Owning"; "10"; "✓"];
              ["Actual Chicken Count (Per Audit)"; "3"; "⚠️"];
              ["Discrepancy"; "-7"; "CRITICAL"] ],
            flock_style).
Proof.
  destruct (@story reference_runtime (PDict grumpy) sample_date) as [els|e] eqn:E;
    [| vm_compute in E; discriminate].
  exists els. split; [reflexivity |].
  exact (@findings_table_rows reference_runtime grumpy sample_date els 3 10
           eq_refl eq_refl E).
Defined.

Lemma layout_is_fixed_witness :
  exists els,
    @story reference_runtime (PDict jane) sample_date = Ok els /\
    length els = 37%nat.
Proof.
  destruct (@story reference_runtime (PDict jane) sample_date) as [els|e] eqn:E;
    [| vm_compute in E; discriminate].
  exists els. split; [reflexivity |].
  apply (@layout_is_fixed reference_runtime (PDict jane) sample_date els E).
Defined.

Lemma page_decoration_matches_story_witness :
  exists els ops,
    @story reference_runtime (PDict jane) sample_date = Ok els /\
    @add_page_number reference_runtime sample_date 2 = Ok ops /\
    drawString (fst letter - 3 * inch) (snd letter - inch / 2)
      "Report Date: March 05, 2024" ∈ ops /\
    drawCentredString (fst letter / 2) (inch / 2)
      "Page 2 | CONFIDENTIAL - For Chicken Owner Use Only" ∈ ops.
Proof.
  destruct (@story reference_runtime (PDict jane) sample_date) as [els|e] eqn:E;
    [| vm_compute in E; discriminate].
  destruct (@add_page_number reference_runtime sample_date 2) as [ops|e] eqn:Ea;
    [| vm_compute in Ea; discriminate].
  destruct (@page_decoration_matches_story reference_runtime (PDict jane)
              sample_date els 2 ops E Ea) as (_ & _ & _ & _ & Hd & Hp).
  exists els, ops. repeat split; assumption.
Defined.

(** ** The script run on its own sample *)

Example sample_run :
  let run := @generate_chicken_math_pdf reference_runtime (PDict sample_data)
               "/mnt/user-data/outputs/chicken_math_report_sample.pdf"
               sample_date empty_world in
  fst run = Ok "/mnt/user-data/outputs/chicken_math_report_sample.pdf" /\
  stdout (snd run)
  = ["PDF generated successfully: /mnt/user-data/outputs/chicken_math_report_sample.pdf"] /\
  @flock_data reference_runtime (PDict sample_data)
  = Ok [ ["Category"; "Count"; "Status"];
         ["Chickens You Admit To Owning"; "6"; "✓"];
         ["Actual Chicken Count (Per Audit)"; "11"; "⚠️"];
         ["Discrepancy"; "5"; "CRITICAL"] ].
Proof. repeat split; vm_compute; reflexivity. Qed.

(** The service descriptor does not list the base64 route. *)
Example home_endpoints :
  status home = 200 /\ status health = 200 /\
  json_field home "endpoints"
  = Some (PDict (list_to_map
                   [ ("/generate-pdf", PStr "POST - Generate PDF report");
                     ("/health", PStr "GET - Health check") ])).
Proof. repeat split. Qed.
